(** * Target derivation of the SV-calling workflow

    A shallow embedding of [snakemake/helper_functions.py]: the accessors over
    the loaded configuration, the manifest reader ([csv.DictReader] over the
    comment-filtered lines of the sample sheet) and the two target
    derivations [make_output] and [make_all].

    Python values that the code inspects dynamically are kept in one sum type
    [value]; exceptions and [os._exit] are explicit outcomes. Paths follow
    [posixpath] ([os.sep] is the slash). *)

From Stdlib Require Import ZArith Ascii String.
From stdpp Require Import gmap strings list.


(** ** Python values and outcomes *)

(** The values a YAML document or a [DictReader] row can hold, as far as the
    helper functions look at them. *)
Inductive value :=
| VNone
| VBool (b : bool)
| VInt (z : Z)
| VStr (s : string)
| VList (l : list string).

(** What the code writes to [sys.stderr] or puts into an exception. The
    format strings of the source are kept as constructors with their
    arguments. *)
Inductive message :=
| UnsupportedCaller (c : string)
    (* "SV caller '{}' is not supported!" *)
| UnknownFormat (fmt : string)
    (* "Unknown input file format '{}'." *)
| InvalidMode
    (* "Invalid workflow mode: run (s)ingle- or (p)aired-samples analysis." *)
| MissingValues (manifest : string) (record : nat) (values : list value).
    (* "Missing value(s) in '{}' at record #{}: {}" *)

Inductive exn :=
| AssertionError (m : message)
| KeyError (key : string)
| TypeError
| CsvError.

(** A call either returns, lets an exception escape, or ends the process
    with [os._exit(status)] after printing to the standard error stream. *)
Inductive outcome (A : Type) :=
| Return (a : A)
| Raise (e : exn)
| Exit (status : Z) (stderr : message).

Arguments Return {A} a.
Arguments Raise {A} e.
Arguments Exit {A} status stderr.

#[export] Instance outcome_ret : MRet outcome := fun A a => Return a.

#[export] Instance outcome_bind : MBind outcome := fun A B f m =>
  match m with
  | Return a => f a
  | Raise e => Raise e
  | Exit st msg => Exit st msg
  end.

(** [try: body except TypeError: handler]. *)
Definition except_TypeError {A} (body handler : outcome A) : outcome A :=
  match body with
  | Raise TypeError => handler
  | other => other
  end.

(** The targets of a call that returned. *)
Definition returned {A} (o : outcome A) : option A :=
  match o with
  | Return a => Some a
  | _ => None
  end.

(** ** Strings and paths *)

Definition sep : string := "/".

(** [s.startswith(p)] *)
Definition startswith (p s : string) : bool := String.prefix p s.

(** [s.endswith(os.sep)] *)
Fixpoint endswith_sep (s : string) : bool :=
  match s with
  | EmptyString => false
  | String c EmptyString => Ascii.eqb c "/"
  | String _ s' => endswith_sep s'
  end.

(** One round of the loop of [posixpath.join]: a component that starts with
    the separator replaces what was joined so far; after an empty path or a
    trailing separator the component is appended as it is. *)
Definition join_step (path b : string) : string :=
  if startswith sep b then b
  else if orb (String.eqb path "") (endswith_sep path) then path +:+ b
  else path +:+ sep +:+ b.

Definition join (a : string) (p : list string) : string :=
  fold_left join_step p a.

(** [os.fspath] on the values that occur here: only [str] passes. *)
Definition fspath (v : value) : outcome string :=
  match v with
  | VStr s => Return s
  | _ => Raise TypeError
  end.

Fixpoint fspaths (vs : list value) : outcome (list string) :=
  match vs with
  | [] => Return []
  | v :: vs' => s ← fspath v; ss ← fspaths vs'; Return (s :: ss)
  end.

(** [os.path.join(a, *p)] *)
Definition os_path_join (a : value) (p : list value) : outcome string :=
  a' ← fspath a; p' ← fspaths p; Return (join a' p').

(** [left + right] for a [str] on the left. *)
Definition str_add (left : string) (right : value) : outcome string :=
  match right with
  | VStr s => Return (left +:+ s)
  | _ => Raise TypeError
  end.

(** [s.split(sep)] for a one-character separator. *)
Fixpoint split (c : ascii) (s : string) : list string :=
  match s with
  | EmptyString => [EmptyString]
  | String a s' =>
      if Ascii.eqb a c then EmptyString :: split c s'
      else match split c s' with
           | h :: t => String a h :: t
           | [] => [String a EmptyString]
           end
  end.

(** [sep.join(parts)] *)
Fixpoint sep_join (s : string) (parts : list string) : string :=
  match parts with
  | [] => ""
  | [x] => x
  | x :: rest => x +:+ s +:+ sep_join s rest
  end.

(** [l[:-n]] for a positive [n]. *)
Definition drop_last {A} (n : nat) (l : list A) : list A :=
  take (length l - n) l.

Definition lower_ascii (c : ascii) : ascii :=
  let n := nat_of_ascii c in
  if andb (65 <=? n)%nat (n <=? 90)%nat then ascii_of_nat (n + 32) else c.

(** [s.lower()] on ASCII text. *)
Fixpoint lower (s : string) : string :=
  match s with
  | EmptyString => EmptyString
  | String c s' => String (lower_ascii c) (lower s')
  end.

(** ** The configuration document *)

(** [config = load_configfile('analysis.yaml')]. The keys the module reads
    unconditionally are fields; the nested mappings it tests with [in] are
    finite maps. *)
Record Config := {
  samples : string;
  mode : value;
  enable_callers : list string;
  callers : gmap string (gmap string value);
  file_exts : gmap string value
}.

Section Accessors.

Variable config : Config.

Fixpoint get_callers_from (enabled callers_acc : list string)
  : outcome (list string) :=
  match enabled with
  | [] => Return callers_acc
  | c :: rest =>
      match callers config !! c with
      | None => Raise (AssertionError (UnsupportedCaller c))
      | Some _ => get_callers_from rest (callers_acc ++ [c])
      end
  end.

Definition get_callers : outcome (list string) :=
  get_callers_from (enable_callers config) [].

Definition get_filext (fmt : string) : outcome value :=
  match file_exts config !! fmt with
  | None => Raise (AssertionError (UnknownFormat (lower fmt)))
  | Some v => Return v
  end.

(** [config["callers"][caller]] *)
Definition caller_settings (caller : string) : outcome (gmap string value) :=
  match callers config !! caller with
  | None => Raise (KeyError caller)
  | Some st => Return st
  end.

Definition get_outdir (caller : string) : outcome value :=
  st ← caller_settings caller;
  match st !! "outdir" with
  | None => Raise (KeyError "outdir")
  | Some v => Return v
  end.

Definition get_nthreads (caller : string) : outcome value :=
  st ← caller_settings caller;
  match st !! "threads" with
  | Some v => Return v
  | None => Return (VInt 1)
  end.

Definition get_memory (caller : string) : outcome value :=
  st ← caller_settings caller;
  match st !! "memory" with
  | Some v => Return v
  | None => Return (VInt 1024)
  end.

Definition get_tmpspace (caller : string) : outcome value :=
  st ← caller_settings caller;
  match st !! "tmpspace" with
  | Some v => Return v
  | None => Return (VInt 0)
  end.

End Accessors.

(** ** Iterators *)

(** What an iterator does when it is driven to its end: the items it yields,
    then [StopIteration] or an exception of the [csv] module. Every event
    carries the number of [next] calls made so far on the underlying line
    generator, which is what has been read from the manifest at that
    moment. *)
Inductive stream (A : Type) :=
| Stop (pulls : nat)
| Fail (pulls : nat)
| Yield (x : A) (pulls : nat) (rest : stream A).

Arguments Stop {A} pulls.
Arguments Fail {A} pulls.
Arguments Yield {A} x pulls rest.

Fixpoint yielded {A} (s : stream A) : list A :=
  match s with
  | Yield x _ rest => x :: yielded rest
  | _ => []
  end.

Fixpoint exhausted {A} (s : stream A) : bool :=
  match s with
  | Stop _ => true
  | Fail _ => false
  | Yield _ _ rest => exhausted rest
  end.

(** [line for line in fp if not line.startswith("#")] *)
Definition uncommented (fp : list string) : list string :=
  filter (fun line => startswith "#" line = false) fp.

(** The lines of [fp] that have been read once the generator above has been
    asked [pulls] times for its next line: each answer takes the comment
    lines in front of it with it, and a call that finds no line left has
    read the file to its end. *)
Fixpoint consumed_by (pulls : nat) (fp : list string) : nat :=
  match pulls, fp with
  | O, _ => O
  | S _, [] => O
  | S k, line :: fp' =>
      S (if startswith "#" line then consumed_by pulls fp'
         else consumed_by k fp')
  end.

(** ** The [csv] reader, [excel] dialect

    [_csv.reader] with the default dialect: delimiter [,], quote character
    code 34, [doublequote], no escape character, no [skipinitialspace], not
    [strict]. The state machine is that of CPython 3.11, where a NUL is a
    character like any other. *)
Module Csv.

Inductive ParserState :=
| START_RECORD
| START_FIELD
| IN_FIELD
| IN_QUOTED_FIELD
| QUOTE_IN_QUOTED_FIELD
| EAT_CRNL.

Record Reader := {
  state : ParserState;
  fields : list string;
  field : string
}.

Definition delimiter : ascii := ","%char.
Definition quotechar : ascii := ascii_of_nat 34.
Definition field_limit : N := 131072.

Definition is_newline (c : ascii) : bool :=
  orb (Ascii.eqb c (ascii_of_nat 10)) (Ascii.eqb c (ascii_of_nat 13)).

Definition parse_reset : Reader :=
  {| state := START_RECORD; fields := []; field := "" |}.

Definition set_state (st : ParserState) (rd : Reader) : Reader :=
  {| state := st; fields := fields rd; field := field rd |}.

Definition parse_save_field (rd : Reader) : Reader :=
  {| state := state rd; fields := fields rd ++ [field rd]; field := "" |}.

(** [None] is the [_csv.Error] for a field over the size limit. *)
Definition parse_add_char (rd : Reader) (c : ascii) : option Reader :=
  if (field_limit <=? N.of_nat (String.length (field rd)))%N then None
  else Some {| state := state rd; fields := fields rd;
               field := field rd +:+ String c EmptyString |}.

(** The case [START_FIELD] of [parse_process_char]; [None] as a character
    is the end-of-line mark the reader feeds after each line. *)
Definition start_field (rd : Reader) (c : option ascii) : option Reader :=
  match c with
  | None => Some (set_state START_RECORD (parse_save_field rd))
  | Some a =>
      if is_newline a then Some (set_state EAT_CRNL (parse_save_field rd))
      else if Ascii.eqb a quotechar then Some (set_state IN_QUOTED_FIELD rd)
      else if Ascii.eqb a delimiter then Some (parse_save_field rd)
      else set_state IN_FIELD <$> parse_add_char rd a
  end.

Definition parse_process_char (rd : Reader) (c : option ascii)
  : option Reader :=
  match state rd with
  | START_RECORD =>
      match c with
      | None => Some rd
      | Some a =>
          if is_newline a then Some (set_state EAT_CRNL rd)
          else start_field (set_state START_FIELD rd) c
      end
  | START_FIELD => start_field rd c
  | IN_FIELD =>
      match c with
      | None => Some (set_state START_RECORD (parse_save_field rd))
      | Some a =>
          if is_newline a then Some (set_state EAT_CRNL (parse_save_field rd))
          else if Ascii.eqb a delimiter
               then Some (set_state START_FIELD (parse_save_field rd))
          else parse_add_char rd a
      end
  | IN_QUOTED_FIELD =>
      match c with
      | None => Some rd
      | Some a =>
          if Ascii.eqb a quotechar
          then Some (set_state QUOTE_IN_QUOTED_FIELD rd)
          else parse_add_char rd a
      end
  | QUOTE_IN_QUOTED_FIELD =>
      match c with
      | None => Some (set_state START_RECORD (parse_save_field rd))
      | Some a =>
          if Ascii.eqb a quotechar
          then set_state IN_QUOTED_FIELD <$> parse_add_char rd a
          else if Ascii.eqb a delimiter
               then Some (set_state START_FIELD (parse_save_field rd))
          else if is_newline a
               then Some (set_state EAT_CRNL (parse_save_field rd))
          else set_state IN_FIELD <$> parse_add_char rd a
      end
  | EAT_CRNL =>
      match c with
      | None => Some (set_state START_RECORD rd)
      | Some a => if is_newline a then Some rd else None
      end
  end.

(** The characters of one line, then the end-of-line mark. *)
Fixpoint feed (rd : Reader) (line : string) : option Reader :=
  match line with
  | EmptyString => parse_process_char rd None
  | String c line' => rd' ← parse_process_char rd (Some c); feed rd' line'
  end.

Definition at_record_start (rd : Reader) : bool :=
  match state rd with START_RECORD => true | _ => false end.

Definition in_quoted_field (rd : Reader) : bool :=
  match state rd with IN_QUOTED_FIELD => true | _ => false end.

(** [Reader_iternext], called until the end: lines are taken from the input
    until the parser is back at the start of a record. When the input runs
    out inside a record, what has been collected is returned. [n] counts the
    [next] calls on the input. *)
Fixpoint records (rd : Reader) (lines : list string) (n : nat)
  : stream (list string) :=
  match lines with
  | [] =>
      if orb (negb (String.eqb (field rd) "")) (in_quoted_field rd)
      then Yield (fields (parse_save_field rd)) (S n) (Stop (S (S n)))
      else Stop (S n)
  | line :: rest =>
      match feed rd line with
      | None => Fail (S n)
      | Some rd' =>
          if at_record_start rd'
          then Yield (fields rd') (S n) (records parse_reset rest (S n))
          else records rd' rest (S n)
      end
  end.

(** [csv.reader(lines)] *)
Definition reader (lines : list string) : stream (list string) :=
  records parse_reset lines 0.

End Csv.

(** ** [csv.DictReader] *)

(** A row is a [dict]: keys in insertion order, no key twice. The key [None]
    is [restkey], the value [VNone] is [restval]. *)
Definition row : Type := list (option string * value).

(** [d[k] = v] *)
Fixpoint dict_set (k : option string) (v : value) (d : row) : row :=
  match d with
  | [] => [(k, v)]
  | (k', v') :: d' =>
      if decide (k = k') then (k, v) :: d' else (k', v') :: dict_set k v d'
  end.

Fixpoint dict_find (k : option string) (d : row) : option value :=
  match d with
  | [] => None
  | (k', v) :: d' => if decide (k = k') then Some v else dict_find k d'
  end.

(** [d[k]] for a string key. *)
Definition dict_get (k : string) (d : row) : outcome value :=
  match dict_find (Some k) d with
  | Some v => Return v
  | None => Raise (KeyError k)
  end.

(** [list(d.values())] *)
Definition dict_values (d : row) : list value := map snd d.

(** The body of [DictReader.__next__] after a non-empty record was read. *)
Definition make_row (fieldnames record : list string) : row :=
  let d := foldl (fun d kv => dict_set (Some (fst kv)) (VStr (snd kv)) d)
                 [] (zip fieldnames record) in
  let lf := length fieldnames in
  let lr := length record in
  if (lf <? lr)%nat then dict_set None (VList (drop lf record)) d
  else if (lr <? lf)%nat
       then foldl (fun d key => dict_set (Some key) VNone d)
                  d (drop lr fieldnames)
       else d.

(** The rows after the header: empty records are passed over. *)
Fixpoint DictReader_rows (fieldnames : list string)
    (s : stream (list string)) : stream row :=
  match s with
  | Stop n => Stop n
  | Fail n => Fail n
  | Yield [] _ rest => DictReader_rows fieldnames rest
  | Yield record n rest =>
      Yield (make_row fieldnames record) n (DictReader_rows fieldnames rest)
  end.

(** The first record, whatever it is, gives the field names. On an empty
    input the field names stay unset and the reader is asked once more. *)
Definition DictReader (s : stream (list string)) : stream row :=
  match s with
  | Stop n => Stop (S n)
  | Fail n => Fail n
  | Yield fieldnames _ rest => DictReader_rows fieldnames rest
  end.

(** The rows of a manifest as [make_output] iterates them. *)
Definition manifest_rows (fp : list string) : stream row :=
  DictReader (Csv.reader (uncommented fp)).

(** ** Target derivation *)

(** What a run of [make_output] leaves behind: how the call ended, and how
    often it asked the line generator over the manifest for a line. *)
Record run := {
  result : outcome (list string);
  pulls : nat
}.

Section Targets.

Variable config : Config.

(** The local function [is_ok] of [make_output]. *)
Definition is_ok (s : value) : value :=
  match s with
  | VNone => VBool false
  | VStr EmptyString => VBool false
  | _ => s
  end.

(** [mode in ('s', 'p')] *)
Definition mode_in_s_p (m : value) : bool :=
  match m with
  | VStr s => orb (String.eqb s "s") (String.eqb s "p")
  | _ => false
  end.

(** [mode.startswith('p') is True], reached with a string mode only. *)
Definition mode_startswith_p (m : value) : bool :=
  match m with
  | VStr s => startswith "p" s
  | _ => false
  end.

(** The statements under [try] in the loop over the rows. *)
Definition sample_path (r : row) : outcome string :=
  p ← dict_get "PATH" r;
  s1 ← dict_get "SAMPLE1" r;
  path ← os_path_join p [is_ok s1];
  if mode_startswith_p (mode config)
  then s2 ← dict_get "SAMPLE2" r;
       tail ← str_add "--" (is_ok s2);
       Return (path +:+ tail)
  else Return path.

(** The [try] statement with its handler; [i] is the index [enumerate]
    gives the row. *)
Definition checked_sample_path (i : nat) (r : row) : outcome string :=
  except_TypeError (sample_path r)
    (Exit 1 (MissingValues (samples config) (i + 1) (dict_values r))).

(** One round of [for c in get_callers()]. *)
Definition caller_target (path c : string) : outcome string :=
  ext ← get_filext config "vcf";
  vcf ← str_add c ext;
  outdir ← get_outdir config c;
  os_path_join (VStr path) [outdir; VStr "survivor"; VStr vcf].

Fixpoint caller_targets (path : string) (cs outfiles : list string)
  : outcome (list string) :=
  match cs with
  | [] => Return outfiles
  | c :: cs' =>
      vcf ← caller_target path c;
      caller_targets path cs' (outfiles ++ [vcf])
  end.

(** The body of [for i, r in enumerate(reader)]. *)
Definition row_targets (i : nat) (r : row) (outfiles : list string)
  : outcome (list string) :=
  path ← checked_sample_path i r;
  cs ← get_callers config;
  caller_targets path cs outfiles.

Fixpoint rows_loop (i : nat) (reader : stream row) (outfiles : list string)
  : run :=
  match reader with
  | Stop n => {| result := Return outfiles; pulls := n |}
  | Fail n => {| result := Raise CsvError; pulls := n |}
  | Yield r n rest =>
      match row_targets i r outfiles with
      | Return outfiles' => rows_loop (S i) rest outfiles'
      | failure => {| result := failure; pulls := n |}
      end
  end.

(** [make_output] on a manifest that [open] found; [fp] are its lines. *)
Definition make_output (fp : list string) : run :=
  if mode_in_s_p (mode config)
  then rows_loop 0 (manifest_rows fp) []
  else {| result := Exit 1 InvalidMode; pulls := 0 |}.

(** The lines of the manifest a run has read. *)
Definition lines_read (fp : list string) : nat :=
  consumed_by (pulls (make_output fp)) fp.

(** The loop body of [make_all]. *)
Definition merged_path (f : string) : string :=
  join (sep_join sep (drop_last 3 (split "/" f))) ["all.vcf"].

(** [set(merged_outfiles)] for the targets [outfiles]. *)
Definition merged (outfiles : list string) : gset string :=
  list_to_set (merged_path <$> outfiles).

Definition make_all (fp : list string) : outcome (gset string) :=
  outfiles ← result (make_output fp); Return (merged outfiles).

End Targets.

(** ** Sample inputs *)

Definition nl : string := String (ascii_of_nat 10) EmptyString.

Definition manta_config (m : string) (enabled : list string) : Config :=
  {| samples := "samples.csv";
     mode := VStr m;
     enable_callers := enabled;
     callers := {[ "manta" := {[ "outdir" := VStr "manta_out" ]};
                   "delly" := {[ "outdir" := VStr "delly_out" ]} ]};
     file_exts := {[ "vcf" := VStr ".vcf" ]} |}.

Definition paired_manifest : list string :=
  [ "#sample sheet" +:+ nl;
    "PATH,SAMPLE1,SAMPLE2" +:+ nl;
    "runs,A,B" +:+ nl ].

(** A configuration whose caller writes to an absolute directory. *)
Definition scratch_config : Config :=
  {| samples := "samples.csv";
     mode := VStr "p";
     enable_callers := ["manta"];
     callers := {[ "manta" := {[ "outdir" := VStr "/scratch/manta" ]} ]};
     file_exts := {[ "vcf" := VStr ".vcf" ]} |}.

(** A row whose first sample is an absolute path. *)
Definition absolute_sample_row : row :=
  [(Some "PATH", VStr "runs"); (Some "SAMPLE1", VStr "/data/A");
   (Some "SAMPLE2", VStr "B")].

(** A configuration whose caller is supported and declares no output
    directory. *)
Definition no_outdir_config : Config :=
  {| samples := "samples.csv";
     mode := VStr "p";
     enable_callers := ["manta"];
     callers := {[ "manta" := {[ "threads" := VInt 4 ]} ]};
     file_exts := {[ "vcf" := VStr ".vcf" ]} |}.

(** A header and no data row. *)
Definition header_only : list string := [ "PATH,SAMPLE1,SAMPLE2" +:+ nl ].

(** A data row with an empty [PATH]. *)
Definition empty_path_manifest : list string :=
  [ "PATH,SAMPLE1" +:+ nl; ",A" +:+ nl ].

(** A sheet without the [SAMPLE2] column. *)
Definition single_manifest : list string :=
  [ "PATH,SAMPLE1" +:+ nl; "runs,A" +:+ nl ].

(** ** Properties of inputs *)

(** The mode is one of the two the workflow knows. *)
Definition valid_mode (cfg : Config) : Prop :=
  mode cfg = VStr "s" \/ mode cfg = VStr "p".

(** The caller is in the supported mapping and declares a string as its
    output directory. *)
Definition declares_outdir (cfg : Config) (c : string) : Prop :=
  exists st d, callers cfg !! c = Some st /\ st !! "outdir" = Some (VStr d).

(** Every enabled caller is supported and declares its output directory, and
    the extension of VCF files is registered as a string. *)
Definition well_configured (cfg : Config) : Prop :=
  (exists ext, file_exts cfg !! "vcf" = Some (VStr ext))
  /\ Forall (declares_outdir cfg) (enable_callers cfg).

(** A row passes the statements under [try]. *)
Definition valid_row (cfg : Config) (r : row) : Prop :=
  exists path, sample_path cfg r = Return path.

(** The targets one valid row contributes, one per enabled caller. *)
Definition row_yields (cfg : Config) (r : row) (ts : list string) : Prop :=
  exists path, sample_path cfg r = Return path
    /\ Forall2 (fun c t => caller_target cfg path c = Return t)
               (enable_callers cfg) ts.

(** The shape of a per-caller target as the design states it:
    [{samplePath}/{callerOutDir}/survivor/{callerName}{vcfExt}]. *)
Definition per_caller_template
    (samplePath callerOutDir callerName vcfExt : string) : string :=
  samplePath +:+ "/" +:+ callerOutDir +:+ "/survivor/"
    +:+ callerName +:+ vcfExt.

(** The sample-path segments as the design states them: [PATH/SAMPLE1] and
    [PATH/SAMPLE1--SAMPLE2]. *)
Definition single_template (PATH SAMPLE1 : string) : string :=
  PATH +:+ "/" +:+ SAMPLE1.

Definition paired_template (PATH SAMPLE1 SAMPLE2 : string) : string :=
  PATH +:+ "/" +:+ SAMPLE1 +:+ "--" +:+ SAMPLE2.

(** The components under which [posixpath.join] only puts separators in
    between: nothing empty, no separator at the start of the directory or of
    the file name, none at the end of the path or of the directory. *)
Definition joins_plainly (path outdir vcf : string) : Prop :=
  path <> "" /\ endswith_sep path = false
  /\ outdir <> "" /\ startswith sep outdir = false
  /\ endswith_sep outdir = false
  /\ startswith sep vcf = false.

(** A value that [is_ok] turns down: [None] or the empty string. *)
Definition missing (v : value) : Prop := v = VNone \/ v = VStr "".

(** The row has the keys the mode reads, and a value among them that makes
    the statements under [try] raise [TypeError]: [PATH] is [None], or
    [SAMPLE1] is missing, or in paired mode [SAMPLE2] is missing. *)
Definition lacks_required_value (cfg : Config) (r : row) : Prop :=
  exists p s1,
    dict_find (Some "PATH") r = Some p
    /\ dict_find (Some "SAMPLE1") r = Some s1
    /\ (p = VNone \/ missing s1
        \/ (mode cfg = VStr "p"
            /\ exists s2, dict_find (Some "SAMPLE2") r = Some s2
                          /\ missing s2)).

(** The claim that every required field, [PATH] included, is checked for the
    empty string: a row whose [PATH] is the empty string is reported. *)
Definition empty_path_reported (cfg : Config) (fp : list string) : Prop :=
  forall r,
    yielded (manifest_rows fp) = [r] ->
    dict_find (Some "PATH") r = Some (VStr "") ->
    result (make_output cfg fp)
    = Exit 1 (MissingValues (samples cfg) 1 (dict_values r)).

(** The claim that valid rows and supported callers are enough for the
    cross product: nothing is asked of what the callers declare. *)
Definition cross_product_for_supported (cfg : Config) (fp : list string)
  : Prop :=
  valid_mode cfg ->
  Forall (fun c => is_Some (callers cfg !! c)) (enable_callers cfg) ->
  exhausted (manifest_rows fp) = true ->
  Forall (valid_row cfg) (yielded (manifest_rows fp)) ->
  exists outs,
    result (make_output cfg fp) = Return outs
    /\ length outs
       = length (yielded (manifest_rows fp)) * length (enable_callers cfg).

(** The claim that the callers are checked before the manifest is read. *)
Definition checked_before_reading (cfg : Config) (fp : list string) : Prop :=
  (exists c, c ∈ enable_callers cfg /\ callers cfg !! c = None) ->
  (exists c, result (make_output cfg fp)
             = Raise (AssertionError (UnsupportedCaller c)))
  /\ lines_read cfg fp = 0.

(** Two rows agree on every key but [key]. *)
Definition differ_only_in (key : string) (r r' : row) : Prop :=
  forall k, k <> Some key -> dict_find k r = dict_find k r'.

(** Two readers end the same way after rows that agree pairwise up to [R]. *)
Inductive stream_rel {A} (R : A -> A -> Prop) : stream A -> stream A -> Prop :=
| stream_rel_Stop n n' : stream_rel R (Stop n) (Stop n')
| stream_rel_Fail n n' : stream_rel R (Fail n) (Fail n')
| stream_rel_Yield x x' n n' s s' :
    R x x' -> stream_rel R s s' ->
    stream_rel R (Yield x n s) (Yield x' n' s').

(** An outcome without the row values its message lists. *)
Definition forget_values {A} (o : outcome A) : outcome A :=
  match o with
  | Exit st (MissingValues f i _) => Exit st (MissingValues f i [])
  | _ => o
  end.

(** Every event of the stream happens after more than [k] calls, and the
    calls never go down along the stream. *)
Fixpoint pulls_above {A} (k : nat) (s : stream A) : Prop :=
  match s with
  | Stop n => k < n
  | Fail n => k < n
  | Yield _ n rest => k < n /\ pulls_above n rest
  end.

(** The reader is inside a record: [Reader_iternext] returns it when the
    input runs out. *)
Definition inside_record (rd : Csv.Reader) : bool :=
  orb (negb (String.eqb (Csv.field rd) "")) (Csv.in_quoted_field rd).

(** [fp'] is [fp] with comment lines put in, anywhere and any number. *)
Inductive with_comments : list string -> list string -> Prop :=
| with_comments_nil : with_comments [] []
| with_comments_keep line fp fp' :
    with_comments fp fp' -> with_comments (line :: fp) (line :: fp')
| with_comments_insert c fp fp' :
    startswith "#" c = true ->
    with_comments fp fp' -> with_comments fp (c :: fp').

(** ** File names, reference files and flags *)

From Stdlib Require SpecFloat.

(** [s.endswith(sfx)] for a string [sfx]. *)
Fixpoint endswith (sfx s : string) : bool :=
  if String.eqb s sfx then true
  else match s with
       | EmptyString => false
       | String _ s' => endswith sfx s'
       end.

(** [s.endswith(sfx)] for whatever the configuration gives as [sfx]: a list
    or a number is not accepted as a suffix. *)
Definition str_endswith (s : string) (sfx : value) : outcome bool :=
  match sfx with
  | VStr x => Return (endswith x s)
  | _ => Raise TypeError
  end.

(** [c in s] for a character. *)
Fixpoint has_char (c : ascii) (s : string) : bool :=
  match s with
  | EmptyString => false
  | String a s' => orb (Ascii.eqb a c) (has_char c s')
  end.

(** [s.split(sep)[0]] for a non-empty [sep]: what stands before the first
    place where [sep] occurs, all of [s] when it occurs nowhere. *)
Fixpoint split_head (sep s : string) : string :=
  if startswith sep s then EmptyString
  else match s with
       | EmptyString => EmptyString
       | String c s' => String c (split_head sep s')
       end.

(** The characters [str.split()] takes for white space, among the first
    128. *)
Definition is_space (c : ascii) : bool :=
  let n := nat_of_ascii c in
  orb (andb (9 <=? n)%nat (n <=? 13)%nat)
      (andb (28 <=? n)%nat (n <=? 32)%nat).

Fixpoint first_word (s : string) : string :=
  match s with
  | EmptyString => EmptyString
  | String c s' => if is_space c then EmptyString else String c (first_word s')
  end.

(** [s.split()[0]]: the first word, if there is one. *)
Fixpoint split_whitespace_head (s : string) : option string :=
  match s with
  | EmptyString => None
  | String c s' =>
      if is_space c then split_whitespace_head s' else Some (first_word s)
  end.

(** The one-character strings a [for] loop over a string goes through. *)
Fixpoint chars (s : string) : list string :=
  match s with
  | EmptyString => []
  | String c s' => String c EmptyString :: chars s'
  end.

(** The items of [for sfx in v]. *)
Definition iterate (v : value) : outcome (list string) :=
  match v with
  | VList l => Return l
  | VStr s => Return (chars s)
  | _ => Raise TypeError
  end.

(** The values of the two flags: the ones above and, besides, the floats a
    YAML document can hold. *)
Inductive scalar :=
| Plain (v : value)
| Float (f : SpecFloat.spec_float).

(** [f == z] for a float and an integer. Python compares the exact values:
    a finite float is its mantissa times a power of two, with its sign; a
    zero of either sign is 0; [nan] and the infinities equal no integer. *)
Definition float_eq_int (f : SpecFloat.spec_float) (z : Z) : bool :=
  match f with
  | SpecFloat.S754_zero _ => Z.eqb z 0
  | SpecFloat.S754_finite s m e =>
      let n := if s then Z.neg m else Z.pos m in
      if (0 <=? e)%Z then Z.eqb (n * 2 ^ e) z
      else Z.eqb n (z * 2 ^ (- e))
  | _ => false
  end.

(** [v in (0, 1)]: Python compares with [==], under which [False] and the
    float zeros are 0, and [True] and the float one are 1. *)
Definition in_0_1 (v : scalar) : bool :=
  match v with
  | Plain (VInt z) => orb (Z.eqb z 0) (Z.eqb z 1)
  | Plain (VBool _) => true
  | Plain _ => false
  | Float f => orb (float_eq_int f 0) (float_eq_int f 1)
  end.

Section FileNames.

Variable config : Config.

Definition get_bam (sample : string) : outcome string :=
  sfx ← get_filext config "bam";
  ends ← str_endswith sample sfx;
  if (ends : bool) then Return sample else str_add sample sfx.

Definition get_bai (sample : string) : outcome string :=
  sfx ← get_filext config "bam_idx";
  ends ← str_endswith sample sfx;
  if (ends : bool) then Return sample else str_add sample sfx.

End FileNames.

(** What the functions below print before [os._exit(1)]. *)
Inductive notice :=
| Earlier (m : message)
| FastaNotFound (fname : string)
    (* "FASTA file not found: {}." *)
| FastaNotRegistered (fname : string)
    (* "FASTA file '{}' (extension) not registered." *)
| FastaIndexNotFound (fname : string)
    (* "FASTA index file not found: {}." *)
| InvalidExcludeRegions
    (* "Invalid value: 'exclude_regions' must be either 0 or 1." *)
| ExclusionNotFound (fname : string)
    (* "Exclusion file not found: {}." *)
| ExclusionSuffix (fname : string) (sfx : value)
    (* "Exclusion file '{}' must end with '{}' suffix." *)
| InvalidTumorOnly.
    (* "Incorrect value for Manta 'tumor_only': must be either 0 or 1." *)

(** The exceptions of these functions: those of the functions above, the
    ones of [str.split] and of indexing, and the [AssertionError] they raise
    under [try]. *)
Inductive error :=
| Propagated (e : exn)
| ValueError
| IndexError
| Assertion (m : notice).

Inductive checked (A : Type) :=
| Passed (a : A)
| Raised (e : error)
| Exited (status : Z) (stderr : notice).

Arguments Passed {A} a.
Arguments Raised {A} e.
Arguments Exited {A} status stderr.

#[export] Instance checked_ret : MRet checked := fun A a => Passed a.

#[export] Instance checked_bind : MBind checked := fun A B f m =>
  match m with
  | Passed a => f a
  | Raised e => Raised e
  | Exited st msg => Exited st msg
  end.

(** A call of one of the functions above from one of these. *)
Definition lift {A} (o : outcome A) : checked A :=
  match o with
  | Return a => Passed a
  | Raise e => Raised (Propagated e)
  | Exit st m => Exited st (Earlier m)
  end.

(** [if cond: raise AssertionError(msg)] *)
Definition raise_if (cond : bool) (msg : notice) : checked unit :=
  if cond then Raised (Assertion msg) else Passed tt.

(** [try: body except AssertionError as err: print(str(err)); os._exit(1)] *)
Definition except_AssertionError {A} (body : checked A) : checked A :=
  match body with
  | Raised (Assertion m) => Exited 1 m
  | Raised (Propagated (AssertionError m)) => Exited 1 (Earlier m)
  | other => other
  end.

(** [s.split(sep)[0]] for whatever the configuration gives as [sep]. *)
Definition str_split_head (s : string) (sep : value) : checked string :=
  match sep with
  | VStr EmptyString => Raised ValueError
  | VStr x => Passed (split_head x s)
  | VNone =>
      match split_whitespace_head s with
      | Some w => Passed w
      | None => Raised IndexError
      end
  | _ => Raised (Propagated TypeError)
  end.

(** The keys of the document that the target derivation does not read, beside
    the ones it reads. The flag [exclude_regions] may be absent from the
    document, and may be a float. *)
Record Analysis := {
  settings : Config;
  genome : string;
  exclusion_list : string;
  exclude_regions_value : option scalar
}.

Section Validators.

Variable doc : Analysis.

(** [os.path.exists] *)
Variable path_exists : string -> bool.

Definition get_fasta : checked string :=
  let fname := genome doc in
  sfx ← lift (get_filext (settings doc) "fasta");
  _ ← except_AssertionError
        (_ ← raise_if (negb (path_exists fname)) (FastaNotFound fname);
         ends ← lift (str_endswith fname sfx);
         raise_if (negb ends) (FastaNotRegistered fname));
  Passed fname.

(** The loop of [get_faidx] over the suffixes that are left. *)
Fixpoint get_faidx_from (sfxs faidx : list string) : checked (list string) :=
  match sfxs with
  | [] => Passed faidx
  | sfx :: rest =>
      fasta ← get_fasta;
      ext ← lift (get_filext (settings doc) "fasta");
      head ← str_split_head fasta ext;
      let fname := head +:+ sfx in
      _ ← except_AssertionError
            (raise_if (negb (path_exists fname)) (FastaIndexNotFound fname));
      get_faidx_from rest (faidx ++ [fname])
  end.

Definition get_faidx : checked (list string) :=
  sfxs ← lift (get_filext (settings doc) "fasta_idx" ≫= iterate);
  get_faidx_from sfxs [].

Definition exclude_regions : checked scalar :=
  excl ← match exclude_regions_value doc with
         | Some v => Passed v
         | None => Raised (Propagated (KeyError "exclude_regions"))
         end;
  _ ← except_AssertionError
        (raise_if (negb (in_0_1 excl)) InvalidExcludeRegions);
  Passed excl.

Definition get_bed : checked string :=
  let fname := exclusion_list doc in
  sfx ← lift (get_filext (settings doc) "bed");
  _ ← except_AssertionError
        (_ ← raise_if (negb (path_exists fname)) (ExclusionNotFound fname);
         ends ← lift (str_endswith fname sfx);
         raise_if (negb ends) (ExclusionSuffix fname sfx));
  Passed fname.

Definition is_tumor_only : checked value :=
  st ← lift (caller_settings (settings doc) "manta");
  val ← match st !! "tumor_only" with
        | Some v => Passed v
        | None => Raised (Propagated (KeyError "tumor_only"))
        end;
  _ ← except_AssertionError
        (raise_if (negb (in_0_1 (Plain val))) InvalidTumorOnly);
  Passed val.

End Validators.

(** ** More sample inputs *)

Definition hg19_config : Config :=
  {| samples := "samples.csv";
     mode := VStr "p";
     enable_callers := ["manta"; "delly"];
     callers := {[ "manta" := {[ "outdir" := VStr "manta_out";
                                 "tumor_only" := VBool true ]};
                   "delly" := {[ "outdir" := VStr "delly_out" ]} ]};
     file_exts := {[ "vcf" := VStr ".vcf";
                     "fasta" := VStr ".fasta";
                     "fasta_idx" := VList [".fasta.fai"; ".fasta.bwt"];
                     "bam" := VStr ".bam";
                     "bam_idx" := VStr ".bam.bai";
                     "bed" := VStr ".bed" ]} |}.

Definition hg19 : Analysis :=
  {| settings := hg19_config;
     genome := "data/hg19.fasta";
     exclusion_list := "data/gaps.bed";
     exclude_regions_value := Some (Plain (VInt 1)) |}.

(** The float 1.0: mantissa [2^52], exponent [-52]. *)
Definition float_one : SpecFloat.spec_float :=
  SpecFloat.S754_finite false 4503599627370496 (-52).

(** A reference whose name has the extension twice, and a float as the
    flag. *)
Definition hg19_masked : Analysis :=
  {| settings := hg19_config;
     genome := "data/hg19.fasta.masked.fasta";
     exclusion_list := "data/gaps.bed";
     exclude_regions_value := Some (Float float_one) |}.

(** A file system that holds the files listed. *)
Definition holds (files : list string) (fname : string) : bool :=
  bool_decide (fname ∈ files).

(** ** Properties of rows and streams *)

(** The values a reader gives under the names of the header: a string, or
    [None] where the record was short. *)
Definition field_value (v : value) : Prop :=
  v = VNone \/ exists s, v = VStr s.

(** The number of [next] calls at the end of a stream. *)
Fixpoint final_pulls {A} (s : stream A) : nat :=
  match s with
  | Stop n => n
  | Fail n => n
  | Yield _ _ rest => final_pulls rest
  end.

(** Every enabled caller declares an output directory that is one plain
    segment, and no caller name with the VCF extension holds a separator. *)
Definition plainly_configured (cfg : Config) : Prop :=
  exists ext,
    file_exts cfg !! "vcf" = Some (VStr ext)
    /\ Forall (fun c =>
         has_char "/" (c +:+ ext) = false
         /\ exists st d,
              callers cfg !! c = Some st
              /\ st !! "outdir" = Some (VStr d)
              /\ d <> "" /\ has_char "/" d = false)
       (enable_callers cfg).

(** * Theorems *)

(** ** The outcome monad *)

Lemma bind_Return {A B} (f : A -> outcome B) (m : outcome A) (b : B) :
  m ≫= f = Return b -> exists a, m = Return a /\ f a = Return b.
Proof. destruct m as [a| |]; simpl; [eauto | discriminate..]. Qed.

Lemma except_TypeError_Return {A} (body handler : outcome A) (a : A) :
  body = Return a -> except_TypeError body handler = Return a.
Proof. intros ->. reflexivity. Qed.

(** ** The model on small inputs *)

Example join_relative : join "runs" ["A"] = "runs/A".
Proof. reflexivity. Qed.

Example join_trailing_separator : join "runs/" ["A"] = "runs/A".
Proof. reflexivity. Qed.

Example join_absolute : join "runs" ["/data/A"; "x"] = "/data/A/x".
Proof. reflexivity. Qed.

Example join_empty_start : join "" ["all.vcf"] = "all.vcf".
Proof. reflexivity. Qed.

Example split_path : split "/" "/a/b" = [""; "a"; "b"].
Proof. reflexivity. Qed.

Example merged_path_of_target :
  merged_path "runs/A--B/manta_out/survivor/manta.vcf" = "runs/A--B/all.vcf".
Proof. reflexivity. Qed.

Example reader_quoted_field :
  yielded (Csv.reader
    [String Csv.quotechar "a,b" +:+ nl;
     "c" +:+ String Csv.quotechar ",d" +:+ nl; nl])
  = [["a,b" +:+ nl +:+ "c"; "d"]; []].
Proof. vm_compute. reflexivity. Qed.

Example rows_short_and_long :
  yielded (manifest_rows
    ["PATH,SAMPLE1,SAMPLE2" +:+ nl; "runs,A" +:+ nl; nl; "r,A,B,C" +:+ nl])
  = [ [(Some "PATH", VStr "runs"); (Some "SAMPLE1", VStr "A");
       (Some "SAMPLE2", VNone)];
      [(Some "PATH", VStr "r"); (Some "SAMPLE1", VStr "A");
       (Some "SAMPLE2", VStr "B"); (None, VList ["C"])] ].
Proof. vm_compute. reflexivity. Qed.

Example make_output_paired :
  make_output (manta_config "p" ["manta"]) paired_manifest
  = {| result := Return ["runs/A--B/manta_out/survivor/manta.vcf"];
       pulls := 3 |}.
Proof. vm_compute. reflexivity. Qed.

Example lines_read_paired :
  lines_read (manta_config "p" ["manta"]) paired_manifest = 3.
Proof. vm_compute. reflexivity. Qed.

(** ** Resource accessors *)

(** C10. For a caller of the supported mapping, [get_nthreads], [get_memory]
    and [get_tmpspace] return 1, 1024 and 0 when the settings of the caller
    lack the key, and the configured value, unchanged, when they have it. *)
Theorem resource_defaults (cfg : Config) (c : string)
    (st : gmap string value) :
  callers cfg !! c = Some st ->
  (st !! "threads" = None -> get_nthreads cfg c = Return (VInt 1))
  /\ (st !! "memory" = None -> get_memory cfg c = Return (VInt 1024))
  /\ (st !! "tmpspace" = None -> get_tmpspace cfg c = Return (VInt 0))
  /\ (forall v, st !! "threads" = Some v -> get_nthreads cfg c = Return v)
  /\ (forall v, st !! "memory" = Some v -> get_memory cfg c = Return v)
  /\ (forall v, st !! "tmpspace" = Some v -> get_tmpspace cfg c = Return v).
Proof.
  intros Hc.
  unfold get_nthreads, get_memory, get_tmpspace, caller_settings.
  rewrite Hc. simpl.
  repeat split; intros; match goal with H : _ !! _ = _ |- _ => now rewrite H end.
Qed.

Lemma resource_defaults_witness :
  callers (manta_config "s" ["manta"]) !! "manta"
    = Some {[ "outdir" := VStr "manta_out" ]}
  /\ get_nthreads (manta_config "s" ["manta"]) "manta" = Return (VInt 1)
  /\ get_memory (manta_config "s" ["manta"]) "manta" = Return (VInt 1024)
  /\ get_tmpspace (manta_config "s" ["manta"]) "manta" = Return (VInt 0).
Proof.
  assert (H : callers (manta_config "s" ["manta"]) !! "manta"
              = Some {[ "outdir" := VStr "manta_out" ]}) by reflexivity.
  split; [exact H|].
  destruct (resource_defaults _ _ _ H) as (Ht & Hm & Hs & _).
  split; [apply Ht | split; [apply Hm | apply Hs]]; reflexivity.
Defined.

(** ** The workflow mode *)

Lemma mode_in_s_p_true (m : value) :
  mode_in_s_p m = true <-> m = VStr "s" \/ m = VStr "p".
Proof.
  destruct m as [| | |s|]; simpl;
    try (split; [discriminate | intros [?|?]; discriminate]).
  rewrite orb_true_iff, !String.eqb_eq.
  split; (intros [H|H]; [left|right]); congruence.
Qed.

(** C8. With a mode other than ['s'] and ['p'], [make_output] prints the
    invalid-mode message and exits with status 1: no line of the manifest is
    read, nothing is returned, and [make_all] ends the same way. *)
Theorem invalid_mode_exits (cfg : Config) (fp : list string) :
  mode cfg <> VStr "s" -> mode cfg <> VStr "p" ->
  make_output cfg fp = {| result := Exit 1 InvalidMode; pulls := 0 |}
  /\ returned (result (make_output cfg fp)) = None
  /\ make_all cfg fp = Exit 1 InvalidMode.
Proof.
  intros Hs Hp.
  assert (Hm : mode_in_s_p (mode cfg) = false).
  { destruct (mode_in_s_p (mode cfg)) eqn:E; [|reflexivity].
    apply mode_in_s_p_true in E. tauto. }
  unfold make_all, make_output. rewrite Hm. auto.
Qed.

Lemma invalid_mode_exits_witness :
  mode (manta_config "x" ["manta"]) <> VStr "s"
  /\ mode (manta_config "x" ["manta"]) <> VStr "p"
  /\ result (make_output (manta_config "x" ["manta"]) paired_manifest)
     = Exit 1 InvalidMode.
Proof.
  assert (Hs : mode (manta_config "x" ["manta"]) <> VStr "s") by discriminate.
  assert (Hp : mode (manta_config "x" ["manta"]) <> VStr "p") by discriminate.
  split; [exact Hs|]. split; [exact Hp|].
  exact (f_equal result
    (proj1 (invalid_mode_exits (manta_config "x" ["manta"]) paired_manifest
              Hs Hp))).
Defined.

(** ** Merged targets *)

Lemma elem_of_merged (outfiles : list string) (p : string) :
  p ∈ merged outfiles <-> exists f, f ∈ outfiles /\ p = merged_path f.
Proof.
  unfold merged. rewrite elem_of_list_to_set, list_elem_of_fmap.
  split; intros (f & H1 & H2); eauto.
Qed.

(** C5. The merged set does not depend on the order of the per-caller
    targets nor on how often a target occurs: a permutation of the sequence
    gives the same set, deriving from the sequence taken twice gives the same
    set, the set holds exactly the 3-level parents joined with [all.vcf], and
    each of them is listed once. *)
Theorem merged_order_independent (outfiles outfiles' : list string) :
  outfiles ≡ₚ outfiles' ->
  merged outfiles = merged outfiles'
  /\ merged (outfiles ++ outfiles) = merged outfiles
  /\ (forall p, p ∈ merged outfiles
        <-> exists f, f ∈ outfiles /\ p = merged_path f)
  /\ NoDup (elements (merged outfiles)).
Proof.
  intros Hperm. repeat split.
  - unfold merged. apply list_to_set_perm_L. now apply fmap_Permutation.
  - apply set_eq. intros p. rewrite !elem_of_merged.
    split; intros (f & Hf & ->); exists f; split; try reflexivity.
    + apply elem_of_app in Hf. tauto.
    + apply elem_of_app. auto.
  - apply elem_of_merged.
  - apply elem_of_merged.
  - apply NoDup_elements.
Qed.

Lemma merged_order_independent_witness :
  ["r/A/manta_out/survivor/manta.vcf"; "r/A/delly_out/survivor/delly.vcf"]
    ≡ₚ ["r/A/delly_out/survivor/delly.vcf"; "r/A/manta_out/survivor/manta.vcf"]
  /\ merged ["r/A/manta_out/survivor/manta.vcf";
             "r/A/delly_out/survivor/delly.vcf"]
     = merged ["r/A/delly_out/survivor/delly.vcf";
               "r/A/manta_out/survivor/manta.vcf"].
Proof.
  assert (H : ["r/A/manta_out/survivor/manta.vcf";
               "r/A/delly_out/survivor/delly.vcf"]
              ≡ₚ ["r/A/delly_out/survivor/delly.vcf";
                  "r/A/manta_out/survivor/manta.vcf"]) by apply perm_swap.
  split; [exact H|].
  exact (proj1 (merged_order_independent _ _ H)).
Defined.

Example merged_collapses :
  elements (merged ["r/A/manta_out/survivor/manta.vcf";
                    "r/A/delly_out/survivor/delly.vcf"])
  = ["r/A/all.vcf"].
Proof. vm_compute. reflexivity. Qed.

(** ** Comment lines *)

Lemma uncommented_with_comments (fp fp' : list string) :
  with_comments fp fp' -> uncommented fp' = uncommented fp.
Proof.
  unfold uncommented.
  induction 1 as [|line fp fp' _ IH|c fp fp' Hc _ IH]; [reflexivity| |].
  - rewrite !filter_cons, IH. reflexivity.
  - rewrite filter_cons_False; [exact IH|]. rewrite Hc. discriminate.
Qed.

(** C6. Comment lines put into a manifest, anywhere and in any number, change
    nothing of what [make_output] and [make_all] do: the same targets, or the
    same failure with the same record number and values in its message. *)
Theorem comment_lines_skipped (cfg : Config) (fp fp' : list string) :
  with_comments fp fp' ->
  make_output cfg fp' = make_output cfg fp
  /\ make_all cfg fp' = make_all cfg fp.
Proof.
  intros H. apply uncommented_with_comments in H.
  unfold make_all, make_output, manifest_rows. rewrite H. auto.
Qed.

Lemma comment_lines_skipped_witness :
  with_comments
    ["PATH,SAMPLE1,SAMPLE2" +:+ nl; "runs,A,B" +:+ nl; "runs,C" +:+ nl]
    ["#sheet" +:+ nl; "PATH,SAMPLE1,SAMPLE2" +:+ nl; "runs,A,B" +:+ nl;
     "#second pair" +:+ nl; "runs,C" +:+ nl]
  /\ make_output (manta_config "p" ["manta"])
       ["#sheet" +:+ nl; "PATH,SAMPLE1,SAMPLE2" +:+ nl; "runs,A,B" +:+ nl;
        "#second pair" +:+ nl; "runs,C" +:+ nl]
     = make_output (manta_config "p" ["manta"])
         ["PATH,SAMPLE1,SAMPLE2" +:+ nl; "runs,A,B" +:+ nl; "runs,C" +:+ nl].
Proof.
  assert (H : with_comments
    ["PATH,SAMPLE1,SAMPLE2" +:+ nl; "runs,A,B" +:+ nl; "runs,C" +:+ nl]
    ["#sheet" +:+ nl; "PATH,SAMPLE1,SAMPLE2" +:+ nl; "runs,A,B" +:+ nl;
     "#second pair" +:+ nl; "runs,C" +:+ nl]).
  { apply with_comments_insert; [reflexivity|].
    do 2 apply with_comments_keep.
    apply with_comments_insert; [reflexivity|].
    apply with_comments_keep, with_comments_nil. }
  split; [exact H|].
  exact (proj1 (comment_lines_skipped (manta_config "p" ["manta"]) _ _ H)).
Defined.

Example record_number_counts_data_rows :
  result (make_output (manta_config "p" ["manta"])
    ["#sheet" +:+ nl; "PATH,SAMPLE1,SAMPLE2" +:+ nl; "runs,A,B" +:+ nl;
     "#second pair" +:+ nl; "runs,C" +:+ nl])
  = Exit 1 (MissingValues "samples.csv" 2 [VStr "runs"; VStr "C"; VNone]).
Proof. vm_compute. reflexivity. Qed.

(** ** The loop over the callers *)

Lemma get_callers_from_Return (cfg : Config) (enabled acc cs : list string) :
  get_callers_from cfg enabled acc = Return cs ->
  cs = acc ++ enabled
  /\ Forall (fun c => is_Some (callers cfg !! c)) enabled.
Proof.
  revert acc. induction enabled as [|c rest IH]; simpl; intros acc H.
  - inversion H. rewrite app_nil_r. auto.
  - destruct (callers cfg !! c) eqn:E; [|discriminate].
    destruct (IH _ H) as [-> HF].
    rewrite <- app_assoc. split; [reflexivity|].
    constructor; [rewrite E; eauto | exact HF].
Qed.

Lemma get_callers_from_supported (cfg : Config) (enabled acc : list string) :
  Forall (fun c => is_Some (callers cfg !! c)) enabled ->
  get_callers_from cfg enabled acc = Return (acc ++ enabled).
Proof.
  intros H. revert acc.
  induction H as [|c rest [st Hc] _ IH]; simpl; intros acc.
  - now rewrite app_nil_r.
  - rewrite Hc, IH, <- app_assoc. reflexivity.
Qed.

Lemma get_callers_from_unsupported (cfg : Config) (enabled : list string)
    (c : string) :
  c ∈ enabled -> callers cfg !! c = None ->
  exists c', c' ∈ enabled /\ callers cfg !! c' = None
    /\ forall acc, get_callers_from cfg enabled acc
                   = Raise (AssertionError (UnsupportedCaller c')).
Proof.
  induction enabled as [|x rest IH]; intros Hin Hc.
  - inversion Hin.
  - destruct (callers cfg !! x) eqn:E.
    + apply elem_of_cons in Hin as [->|Hin]; [congruence|].
      destruct (IH Hin Hc) as (c' & Hin' & Hc' & Hraise).
      exists c'. split; [now apply list_elem_of_further|].
      split; [exact Hc'|]. intros acc. simpl. rewrite E. apply Hraise.
    + exists x. split; [apply list_elem_of_here|].
      split; [exact E|]. intros acc. simpl. now rewrite E.
Qed.

Lemma well_configured_supported (cfg : Config) :
  well_configured cfg ->
  Forall (fun c => is_Some (callers cfg !! c)) (enable_callers cfg).
Proof.
  intros [_ H]. eapply Forall_impl; [exact H|].
  intros c (st & d & Hc & _). rewrite Hc. eauto.
Qed.

Lemma caller_target_declared (cfg : Config) (path c ext d : string)
    (st : gmap string value) :
  file_exts cfg !! "vcf" = Some (VStr ext) ->
  callers cfg !! c = Some st -> st !! "outdir" = Some (VStr d) ->
  caller_target cfg path c = Return (join path [d; "survivor"; c +:+ ext]).
Proof.
  intros He Hc Hd.
  unfold caller_target, get_filext, get_outdir, caller_settings.
  rewrite He, Hc. simpl. rewrite Hd. reflexivity.
Qed.

(** A target that was produced tells where its parts came from. *)
Lemma caller_target_Return (cfg : Config) (path c t : string) :
  caller_target cfg path c = Return t ->
  exists ext d,
    get_filext cfg "vcf" = Return (VStr ext)
    /\ get_outdir cfg c = Return (VStr d)
    /\ t = join path [d; "survivor"; c +:+ ext].
Proof.
  unfold caller_target. intros H.
  apply bind_Return in H as (ext & He & H).
  apply bind_Return in H as (vcf & Hv & H).
  apply bind_Return in H as (d & Hd & H).
  destruct ext as [| | |ext|]; try discriminate. inversion Hv; subst vcf.
  destruct d as [| | |d|]; try discriminate.
  exists ext, d. repeat split; try assumption.
  simpl in H. now inversion H.
Qed.

Lemma caller_targets_Return (cfg : Config) (path : string)
    (cs acc outs : list string) :
  caller_targets cfg path cs acc = Return outs ->
  exists ts, outs = acc ++ ts
    /\ Forall2 (fun c t => caller_target cfg path c = Return t) cs ts.
Proof.
  revert acc. induction cs as [|c cs IH]; simpl; intros acc H.
  - inversion H. exists []. rewrite app_nil_r. auto.
  - apply bind_Return in H as (t & Ht & H).
    destruct (IH _ H) as (ts & -> & HF).
    exists (t :: ts). rewrite <- app_assoc. auto.
Qed.

Lemma caller_targets_all (cfg : Config) (path : string)
    (cs ts acc : list string) :
  Forall2 (fun c t => caller_target cfg path c = Return t) cs ts ->
  caller_targets cfg path cs acc = Return (acc ++ ts).
Proof.
  intros H. revert acc. induction H as [|c t cs ts Hc _ IH]; simpl; intros acc.
  - now rewrite app_nil_r.
  - rewrite Hc. simpl. rewrite IH, <- app_assoc. reflexivity.
Qed.

Lemma well_configured_targets (cfg : Config) (path : string) :
  well_configured cfg ->
  exists ts, Forall2 (fun c t => caller_target cfg path c = Return t)
                     (enable_callers cfg) ts.
Proof.
  intros [[ext He] H].
  induction H as [|c cs (st & d & Hc & Hd) _ IH].
  - exists []. constructor.
  - destruct IH as [ts IH].
    exists (join path [d; "survivor"; c +:+ ext] :: ts).
    constructor; [|exact IH]. eapply caller_target_declared; eassumption.
Qed.

(** ** The loop over the rows *)

Lemma checked_sample_path_Return (cfg : Config) (i : nat) (r : row)
    (path : string) :
  checked_sample_path cfg i r = Return path <-> sample_path cfg r = Return path.
Proof.
  unfold checked_sample_path, except_TypeError.
  destruct (sample_path cfg r) as [p|e|st msg]; [tauto| |tauto].
  destruct e; split; intros H; discriminate || exact H.
Qed.

Lemma targets_supported (cfg : Config) (path : string)
    (cs ts : list string) :
  Forall2 (fun c t => caller_target cfg path c = Return t) cs ts ->
  Forall (fun c => is_Some (callers cfg !! c)) cs.
Proof.
  induction 1 as [|c t cs ts Hc _ IH]; constructor; [|exact IH].
  apply caller_target_Return in Hc as (ext & d & _ & Hd & _).
  unfold get_outdir, caller_settings in Hd.
  destruct (callers cfg !! c); [eauto | discriminate].
Qed.

Lemma row_targets_Return (cfg : Config) (i : nat) (r : row)
    (acc outs : list string) :
  row_targets cfg i r acc = Return outs ->
  exists ts, outs = acc ++ ts /\ row_yields cfg r ts.
Proof.
  unfold row_targets. intros H.
  apply bind_Return in H as (path & Hp & H).
  apply bind_Return in H as (cs & Hcs & H).
  apply checked_sample_path_Return in Hp.
  apply get_callers_from_Return in Hcs as [-> _].
  apply caller_targets_Return in H as (ts & -> & HF).
  exists ts. split; [reflexivity|]. exists path. auto.
Qed.

Lemma row_targets_yields (cfg : Config) (i : nat) (r : row)
    (acc ts : list string) :
  row_yields cfg r ts -> row_targets cfg i r acc = Return (acc ++ ts).
Proof.
  intros (path & Hp & HF). unfold row_targets.
  rewrite (proj2 (checked_sample_path_Return cfg i r path) Hp). simpl.
  unfold get_callers.
  rewrite (get_callers_from_supported _ _ _ (targets_supported _ _ _ _ HF)).
  simpl. now apply caller_targets_all.
Qed.

Lemma rows_loop_Return (cfg : Config) (s : stream row) (i : nat)
    (acc outs : list string) :
  result (rows_loop cfg i s acc) = Return outs ->
  exhausted s = true
  /\ exists tss, Forall2 (row_yields cfg) (yielded s) tss
       /\ outs = acc ++ mjoin tss.
Proof.
  revert i acc. induction s as [n|n|r n rest IH]; simpl; intros i acc H.
  - inversion H. split; [reflexivity|]. exists []. simpl.
    rewrite app_nil_r. auto.
  - discriminate.
  - destruct (row_targets cfg i r acc) as [outs'| |] eqn:E; try discriminate.
    apply row_targets_Return in E as (ts & -> & Hts).
    destruct (IH _ _ H) as (Hex & tss & HF & ->).
    split; [exact Hex|]. exists (ts :: tss). simpl.
    rewrite <- app_assoc. auto.
Qed.

Lemma rows_loop_all (cfg : Config) (s : stream row) (i : nat)
    (acc : list string) (tss : list (list string)) :
  exhausted s = true ->
  Forall2 (row_yields cfg) (yielded s) tss ->
  result (rows_loop cfg i s acc) = Return (acc ++ mjoin tss).
Proof.
  revert i acc tss.
  induction s as [n|n|r n rest IH]; simpl; intros i acc tss Hex HF.
  - inversion HF. simpl. now rewrite app_nil_r.
  - discriminate.
  - inversion HF as [|? ts ? tss' Hts HF']; subst.
    rewrite (row_targets_yields cfg i r acc ts Hts).
    rewrite (IH _ _ _ Hex HF'). simpl. now rewrite <- app_assoc.
Qed.

Lemma valid_rows_yield (cfg : Config) (rows : list row) :
  well_configured cfg -> Forall (valid_row cfg) rows ->
  exists tss, Forall2 (row_yields cfg) rows tss.
Proof.
  intros Hcfg. induction 1 as [|r rows [path Hp] _ [tss IH]].
  - exists []. constructor.
  - destruct (well_configured_targets cfg path Hcfg) as [ts Hts].
    exists (ts :: tss). constructor; [|exact IH]. exists path. auto.
Qed.

Lemma row_yields_length (cfg : Config) (rows : list row)
    (tss : list (list string)) :
  Forall2 (row_yields cfg) rows tss ->
  Forall (fun ts => length ts = length (enable_callers cfg)) tss.
Proof.
  induction 1 as [|r ts rows tss (path & _ & HF) _ IH]; constructor.
  - symmetry. eapply Forall2_length, HF.
  - exact IH.
Qed.

Lemma valid_mode_in_s_p (cfg : Config) :
  valid_mode cfg <-> mode_in_s_p (mode cfg) = true.
Proof. symmetry. apply mode_in_s_p_true. Qed.

(** C3, as stated, fails: a caller that is supported and declares no output
    directory passes [get_callers], and the lookup of [get_outdir] then
    raises [KeyError] at the first valid row, so that no list is
    returned. *)
Lemma supported_caller_without_outdir :
  ~ cross_product_for_supported no_outdir_config paired_manifest
  /\ valid_mode no_outdir_config
  /\ Forall (fun c => is_Some (callers no_outdir_config !! c))
            (enable_callers no_outdir_config)
  /\ exhausted (manifest_rows paired_manifest) = true
  /\ Forall (valid_row no_outdir_config) (yielded (manifest_rows paired_manifest))
  /\ result (make_output no_outdir_config paired_manifest)
     = Raise (KeyError "outdir").
Proof.
  assert (Hm : valid_mode no_outdir_config) by (right; reflexivity).
  assert (Hs : Forall (fun c => is_Some (callers no_outdir_config !! c))
                      (enable_callers no_outdir_config)).
  { constructor; [|constructor]. vm_compute. eauto. }
  assert (Hex : exhausted (manifest_rows paired_manifest) = true)
    by (vm_compute; reflexivity).
  assert (Hrows : Forall (valid_row no_outdir_config)
                         (yielded (manifest_rows paired_manifest))).
  { replace (yielded (manifest_rows paired_manifest))
      with [ [(Some "PATH", VStr "runs"); (Some "SAMPLE1", VStr "A");
              (Some "SAMPLE2", VStr "B")] ] by (vm_compute; reflexivity).
    constructor; [|constructor]. exists "runs/A--B". vm_compute. reflexivity. }
  split; [|repeat (split; [assumption|]); vm_compute; reflexivity].
  intros H. destruct (H Hm Hs Hex Hrows) as (outs & Hr & _).
  vm_compute in Hr. discriminate.
Qed.

(** C3, amended. A manifest that is read to its end, with [N] data rows that
    are all valid, and [K] enabled callers, all supported and each declaring
    a string as its output directory, under a string registered as the VCF
    extension, gives [N * K] targets: the target of row [i] and caller [j]
    of the enabled list is at position [i * K + j]. *)
Theorem make_output_cross_product (cfg : Config) (fp : list string) :
  valid_mode cfg -> well_configured cfg ->
  exhausted (manifest_rows fp) = true ->
  Forall (valid_row cfg) (yielded (manifest_rows fp)) ->
  exists outs,
    result (make_output cfg fp) = Return outs
    /\ length outs
       = length (yielded (manifest_rows fp)) * length (enable_callers cfg)
    /\ forall i j r c,
         yielded (manifest_rows fp) !! i = Some r ->
         enable_callers cfg !! j = Some c ->
         exists path t,
           sample_path cfg r = Return path
           /\ caller_target cfg path c = Return t
           /\ outs !! (i * length (enable_callers cfg) + j) = Some t.
Proof.
  intros Hmode Hcfg Hex Hrows.
  destruct (valid_rows_yield cfg _ Hcfg Hrows) as [tss Htss].
  pose proof (row_yields_length cfg _ _ Htss) as Hlen.
  exists (mjoin tss). split; [|split].
  - unfold make_output.
    rewrite (proj1 (valid_mode_in_s_p cfg) Hmode).
    exact (rows_loop_all cfg _ 0 [] tss Hex Htss).
  - rewrite length_join, (sum_list_fmap_same (length (enable_callers cfg))),
      (Forall2_length _ _ _ Htss) by exact Hlen.
    reflexivity.
  - intros i j r c Hr Hc.
    destruct (Forall2_lookup_l _ _ _ _ _ Htss Hr) as (ts & Hts & path & Hp & HF).
    destruct (Forall2_lookup_l _ _ _ _ _ HF Hc) as (t & Ht & Hct).
    exists path, t. split; [exact Hp|]. split; [exact Hct|].
    apply join_lookup_Some_same_length'; [exact Hlen| |eauto].
    eapply lookup_lt_Some, Hc.
Qed.

Lemma make_output_cross_product_witness :
  valid_mode (manta_config "p" ["manta"; "delly"])
  /\ well_configured (manta_config "p" ["manta"; "delly"])
  /\ result (make_output (manta_config "p" ["manta"; "delly"])
       ["PATH,SAMPLE1,SAMPLE2" +:+ nl; "runs,A,B" +:+ nl; "runs,C,D" +:+ nl])
     = Return ["runs/A--B/manta_out/survivor/manta.vcf";
               "runs/A--B/delly_out/survivor/delly.vcf";
               "runs/C--D/manta_out/survivor/manta.vcf";
               "runs/C--D/delly_out/survivor/delly.vcf"].
Proof.
  assert (Hm : valid_mode (manta_config "p" ["manta"; "delly"]))
    by (right; reflexivity).
  assert (Hc : well_configured (manta_config "p" ["manta"; "delly"])).
  { split; [exists ".vcf"; reflexivity|].
    constructor;
      [exists {[ "outdir" := VStr "manta_out" ]}, "manta_out"; split;
         vm_compute; reflexivity|].
    constructor; [|constructor].
    exists {[ "outdir" := VStr "delly_out" ]}, "delly_out"; split;
      vm_compute; reflexivity. }
  split; [exact Hm|]. split; [exact Hc|].
  destruct (make_output_cross_product (manta_config "p" ["manta"; "delly"])
    ["PATH,SAMPLE1,SAMPLE2" +:+ nl; "runs,A,B" +:+ nl; "runs,C,D" +:+ nl]
    Hm Hc) as (outs & Houts & _).
  - vm_compute. reflexivity.
  - replace (yielded (manifest_rows
      ["PATH,SAMPLE1,SAMPLE2" +:+ nl; "runs,A,B" +:+ nl; "runs,C,D" +:+ nl]))
      with [ [(Some "PATH", VStr "runs"); (Some "SAMPLE1", VStr "A");
              (Some "SAMPLE2", VStr "B")];
             [(Some "PATH", VStr "runs"); (Some "SAMPLE1", VStr "C");
              (Some "SAMPLE2", VStr "D")] ]
      by (vm_compute; reflexivity).
    constructor; [eexists; vm_compute; reflexivity|].
    constructor; [eexists; vm_compute; reflexivity|].
    constructor.
  - rewrite Houts. vm_compute in Houts. symmetry. exact Houts.
Defined.

(** ** Paths *)

Lemma append_cons (x : ascii) (a b : string) :
  String x a +:+ b = String x (a +:+ b).
Proof. reflexivity. Qed.

Lemma append_assoc (a b c : string) : (a +:+ b) +:+ c = a +:+ b +:+ c.
Proof.
  induction a as [|x a IH]; [reflexivity|].
  rewrite !append_cons. now rewrite IH.
Qed.

Lemma length_append (a b : string) :
  String.length (a +:+ b) = String.length a + String.length b.
Proof.
  induction a as [|x a IH]; [reflexivity|].
  rewrite append_cons. simpl. now rewrite IH.
Qed.

Lemma append_nonempty (a b : string) : a <> "" -> a +:+ b <> "".
Proof. destruct a; [congruence | discriminate]. Qed.

Lemma eqb_empty_false (a : string) : a <> "" -> String.eqb a "" = false.
Proof. intros H. now apply String.eqb_neq. Qed.

Lemma endswith_sep_append (a b : string) :
  b <> "" -> endswith_sep (a +:+ b) = endswith_sep b.
Proof.
  intros Hb. induction a as [|x a IH]; [reflexivity|].
  rewrite append_cons. simpl. rewrite IH.
  destruct (a +:+ b) eqn:E; [|reflexivity].
  exfalso. destruct a; [now apply Hb | discriminate].
Qed.

Lemma join_step_plain (path b : string) :
  path <> "" -> endswith_sep path = false -> startswith sep b = false ->
  join_step path b = path +:+ sep +:+ b.
Proof.
  intros Hp He Hb. unfold join_step.
  now rewrite Hb, He, (eqb_empty_false _ Hp).
Qed.

Lemma join_target_plain (path outdir name ext : string) :
  joins_plainly path outdir (name +:+ ext) ->
  join path [outdir; "survivor"; name +:+ ext]
  = per_caller_template path outdir name ext.
Proof.
  intros (Hp & Hpe & Hd & Hds & Hde & Hv).
  unfold join, per_caller_template. simpl.
  rewrite (join_step_plain path outdir Hp Hpe Hds).
  assert (H1 : path +:+ sep +:+ outdir <> "") by now apply append_nonempty.
  assert (H2 : endswith_sep (path +:+ sep +:+ outdir) = false).
  { rewrite !endswith_sep_append; auto. }
  rewrite (join_step_plain _ "survivor" H1 H2 eq_refl).
  rewrite join_step_plain; [| | |exact Hv].
  - rewrite !append_assoc. reflexivity.
  - now apply append_nonempty.
  - rewrite <- !append_assoc, endswith_sep_append; [reflexivity | discriminate].
Qed.

(** ** The shape of the targets *)

(** C4, as stated, fails: an output directory that starts with the separator
    replaces the sample path, so the target of the row [runs], [A], [B] is not
    [runs/A--B//scratch/manta/survivor/manta.vcf]. *)
Lemma absolute_outdir_replaces_sample_path :
  result (make_output scratch_config paired_manifest)
  = Return ["/scratch/manta/survivor/manta.vcf"]
  /\ "/scratch/manta/survivor/manta.vcf"
     <> per_caller_template "runs/A--B" "/scratch/manta" "manta" ".vcf".
Proof. split; [vm_compute; reflexivity | discriminate]. Qed.

(** C4, amended. Every target [make_output] returns is the [posixpath.join] of
    the sample path of a data row, the output directory of an enabled caller,
    [survivor] and the caller name with the VCF extension; it has the shape
    [{samplePath}/{callerOutDir}/survivor/{callerName}{vcfExt}] when these
    components join plainly. For one data row [runs], [A], [B] in paired
    mode, with the caller [manta], its output directory [manta_out] and the
    extension [.vcf], [make_output] returns
    [runs/A--B/manta_out/survivor/manta.vcf] alone and [make_all] the set of
    [runs/A--B/all.vcf]. *)
Theorem per_caller_target_shape (cfg : Config) (fp : list string) :
  (forall outs t,
     result (make_output cfg fp) = Return outs -> t ∈ outs ->
     exists r c path outdir ext,
       r ∈ yielded (manifest_rows fp) /\ c ∈ enable_callers cfg
       /\ sample_path cfg r = Return path
       /\ get_outdir cfg c = Return (VStr outdir)
       /\ get_filext cfg "vcf" = Return (VStr ext)
       /\ t = join path [outdir; "survivor"; c +:+ ext]
       /\ (joins_plainly path outdir (c +:+ ext) ->
           t = per_caller_template path outdir c ext))
  /\ (forall r st,
        mode cfg = VStr "p" -> enable_callers cfg = ["manta"] ->
        callers cfg !! "manta" = Some st ->
        st !! "outdir" = Some (VStr "manta_out") ->
        file_exts cfg !! "vcf" = Some (VStr ".vcf") ->
        exhausted (manifest_rows fp) = true ->
        yielded (manifest_rows fp) = [r] ->
        dict_find (Some "PATH") r = Some (VStr "runs") ->
        dict_find (Some "SAMPLE1") r = Some (VStr "A") ->
        dict_find (Some "SAMPLE2") r = Some (VStr "B") ->
        result (make_output cfg fp)
        = Return ["runs/A--B/manta_out/survivor/manta.vcf"]
        /\ make_all cfg fp = Return {[ "runs/A--B/all.vcf" ]}).
Proof.
  split.
  - intros outs t Hres Ht. unfold make_output in Hres.
    destruct (mode_in_s_p (mode cfg)); [|discriminate].
    apply rows_loop_Return in Hres as (_ & tss & HF & ->).
    simpl in Ht. apply list_elem_of_join in Ht as (ts & Ht & Hts).
    apply list_elem_of_lookup in Hts as [i Hi].
    destruct (Forall2_lookup_r _ _ _ _ _ HF Hi) as (r & Hr & path & Hp & HF').
    apply list_elem_of_lookup in Ht as [j Hj].
    destruct (Forall2_lookup_r _ _ _ _ _ HF' Hj) as (c & Hc & Hct).
    apply caller_target_Return in Hct as (ext & d & He & Hd & ->).
    exists r, c, path, d, ext.
    split; [eapply list_elem_of_lookup_2, Hr|].
    split; [eapply list_elem_of_lookup_2, Hc|].
    repeat (split; [assumption || reflexivity|]).
    apply join_target_plain.
  - intros r st Hm Hen Hc Hd He Hex Hrows HP H1 H2.
    assert (Hres : result (make_output cfg fp)
                   = Return ["runs/A--B/manta_out/survivor/manta.vcf"]).
    { unfold make_output. rewrite Hm. simpl.
      apply (rows_loop_all cfg _ 0 []
               [["runs/A--B/manta_out/survivor/manta.vcf"]] Hex).
      rewrite Hrows. constructor; [|constructor].
      exists "runs/A--B". split.
      - unfold sample_path, dict_get. rewrite HP, H1, H2, Hm. reflexivity.
      - rewrite Hen. constructor; [|constructor].
        now rewrite (caller_target_declared cfg _ _ _ _ _ He Hc Hd). }
    split; [exact Hres|].
    unfold make_all. rewrite Hres. vm_compute. reflexivity.
Qed.

Lemma per_caller_target_shape_witness :
  result (make_output (manta_config "p" ["manta"]) paired_manifest)
  = Return ["runs/A--B/manta_out/survivor/manta.vcf"]
  /\ make_all (manta_config "p" ["manta"]) paired_manifest
     = Return {[ "runs/A--B/all.vcf" ]}
  /\ exists path outdir ext,
       "runs/A--B/manta_out/survivor/manta.vcf"
       = join path [outdir; "survivor"; "manta" +:+ ext].
Proof.
  assert (H : result (make_output (manta_config "p" ["manta"]) paired_manifest)
              = Return ["runs/A--B/manta_out/survivor/manta.vcf"]
           /\ make_all (manta_config "p" ["manta"]) paired_manifest
              = Return {[ "runs/A--B/all.vcf" ]}).
  { refine (proj2 (per_caller_target_shape (manta_config "p" ["manta"])
                     paired_manifest)
              [(Some "PATH", VStr "runs"); (Some "SAMPLE1", VStr "A");
               (Some "SAMPLE2", VStr "B")]
              {[ "outdir" := VStr "manta_out" ]} _ _ _ _ _ _ _ _ _ _);
      vm_compute; reflexivity. }
  destruct H as [Hout Hall]. split; [exact Hout|]. split; [exact Hall|].
  destruct (proj1 (per_caller_target_shape (manta_config "p" ["manta"])
                     paired_manifest) _ _ Hout (list_elem_of_here _ _))
    as (r & c & path & outdir & ext & _ & Hc & _ & _ & _ & Ht & _).
  apply list_elem_of_singleton in Hc. subst c.
  exists path, outdir, ext. exact Ht.
Defined.

(** ** Sample-path segments *)

(** C7, as stated, fails: a first sample that starts with the separator
    replaces the path, so the segments are not [runs//data/A] and
    [runs//data/A--B]. *)
Lemma absolute_sample_replaces_path :
  sample_path (manta_config "s" ["manta"]) absolute_sample_row
  = Return "/data/A"
  /\ sample_path (manta_config "p" ["manta"]) absolute_sample_row
     = Return "/data/A--B"
  /\ "/data/A" <> single_template "runs" "/data/A"
  /\ "/data/A--B" <> paired_template "runs" "/data/A" "B".
Proof. repeat split; (vm_compute; reflexivity) || discriminate. Qed.

Lemma append_longer (a b : string) : b <> "" -> a <> a +:+ b.
Proof.
  intros Hb E. apply (f_equal String.length) in E.
  rewrite length_append in E. destruct b; [congruence|]. simpl in E. lia.
Qed.

Lemma join_one_plain (path b : string) :
  path <> "" -> endswith_sep path = false -> startswith sep b = false ->
  join path [b] = path +:+ "/" +:+ b.
Proof. intros. unfold join. simpl. now apply join_step_plain. Qed.

Lemma sample_path_single (cfg : Config) (r : row) (p s1 : value) :
  mode cfg = VStr "s" ->
  dict_find (Some "PATH") r = Some p ->
  dict_find (Some "SAMPLE1") r = Some s1 ->
  sample_path cfg r = os_path_join p [is_ok s1].
Proof.
  intros Hm HP H1. unfold sample_path, dict_get. rewrite HP, H1, Hm.
  simpl. now destruct (os_path_join p [is_ok s1]).
Qed.

Lemma sample_path_paired (cfg : Config) (r : row) (p s1 s2 : value) :
  mode cfg = VStr "p" ->
  dict_find (Some "PATH") r = Some p ->
  dict_find (Some "SAMPLE1") r = Some s1 ->
  dict_find (Some "SAMPLE2") r = Some s2 ->
  sample_path cfg r
  = path ← os_path_join p [is_ok s1];
    tail ← str_add "--" (is_ok s2);
    Return (path +:+ tail).
Proof.
  intros Hm HP H1 H2. unfold sample_path, dict_get.
  rewrite HP, H1, H2, Hm. reflexivity.
Qed.

(** C7, amended. For a row with non-empty [PATH], [SAMPLE1] and [SAMPLE2],
    single mode gives the segment [posixpath.join(PATH, SAMPLE1)] and paired
    mode the same followed by [--] and [SAMPLE2]; the two are different. They
    are [PATH/SAMPLE1] and [PATH/SAMPLE1--SAMPLE2] when [PATH] does not end
    with the separator and [SAMPLE1] does not start with it. *)
Theorem mode_sensitivity (cfg_s cfg_p : Config) (r : row)
    (PATH SAMPLE1 SAMPLE2 : string) :
  mode cfg_s = VStr "s" -> mode cfg_p = VStr "p" ->
  dict_find (Some "PATH") r = Some (VStr PATH) ->
  dict_find (Some "SAMPLE1") r = Some (VStr SAMPLE1) ->
  dict_find (Some "SAMPLE2") r = Some (VStr SAMPLE2) ->
  PATH <> "" -> SAMPLE1 <> "" -> SAMPLE2 <> "" ->
  exists single paired,
    sample_path cfg_s r = Return single
    /\ sample_path cfg_p r = Return paired
    /\ single = join PATH [SAMPLE1]
    /\ paired = join PATH [SAMPLE1] +:+ "--" +:+ SAMPLE2
    /\ single <> paired
    /\ (endswith_sep PATH = false -> startswith sep SAMPLE1 = false ->
        single = single_template PATH SAMPLE1
        /\ paired = paired_template PATH SAMPLE1 SAMPLE2).
Proof.
  intros Hs Hp HP H1 H2 HnP Hn1 Hn2.
  exists (join PATH [SAMPLE1]), (join PATH [SAMPLE1] +:+ "--" +:+ SAMPLE2).
  assert (Hok1 : is_ok (VStr SAMPLE1) = VStr SAMPLE1)
    by (destruct SAMPLE1; [congruence | reflexivity]).
  assert (Hok2 : is_ok (VStr SAMPLE2) = VStr SAMPLE2)
    by (destruct SAMPLE2; [congruence | reflexivity]).
  repeat split.
  - rewrite (sample_path_single _ _ _ _ Hs HP H1), Hok1. reflexivity.
  - rewrite (sample_path_paired _ _ _ _ _ Hp HP H1 H2), Hok1, Hok2.
    reflexivity.
  - apply append_longer. discriminate.
  - unfold single_template. now apply join_one_plain.
  - unfold paired_template. rewrite join_one_plain by assumption.
    now rewrite !append_assoc.
Qed.

Lemma mode_sensitivity_witness :
  sample_path (manta_config "s" ["manta"])
    [(Some "PATH", VStr "runs"); (Some "SAMPLE1", VStr "A");
     (Some "SAMPLE2", VStr "B")] = Return "runs/A"
  /\ sample_path (manta_config "p" ["manta"])
       [(Some "PATH", VStr "runs"); (Some "SAMPLE1", VStr "A");
        (Some "SAMPLE2", VStr "B")] = Return "runs/A--B".
Proof.
  destruct (mode_sensitivity
    (manta_config "s" ["manta"]) (manta_config "p" ["manta"])
    [(Some "PATH", VStr "runs"); (Some "SAMPLE1", VStr "A");
     (Some "SAMPLE2", VStr "B")] "runs" "A" "B"
    eq_refl eq_refl eq_refl eq_refl eq_refl
    ltac:(discriminate) ltac:(discriminate) ltac:(discriminate))
    as (single & paired & Hs & Hp & -> & -> & _).
  split; [exact Hs | exact Hp].
Defined.

(** ** Rows with missing values *)

Lemma is_ok_missing (v : value) : missing v -> is_ok v = VBool false.
Proof. intros [->| ->]; reflexivity. Qed.

Lemma os_path_join_is_ok_missing (p s1 : value) :
  p = VNone \/ missing s1 -> os_path_join p [is_ok s1] = Raise TypeError.
Proof.
  intros [->|H]; [reflexivity|].
  rewrite (is_ok_missing _ H). unfold os_path_join.
  destruct (fspath p) as [a|e|st msg] eqn:E; simpl; [reflexivity| |].
  - destruct p; simpl in E; congruence.
  - destruct p; discriminate.
Qed.

Lemma fspath_cases (v : value) :
  (exists s, fspath v = Return s) \/ fspath v = Raise TypeError.
Proof. destruct v; simpl; eauto. Qed.

Lemma fspaths_cases (vs : list value) :
  (exists ss, fspaths vs = Return ss) \/ fspaths vs = Raise TypeError.
Proof.
  induction vs as [|v vs IH]; simpl; [eauto|].
  destruct (fspath_cases v) as [[s ->]| ->]; simpl; [|auto].
  destruct IH as [[ss ->]| ->]; simpl; eauto.
Qed.

(** [os.path.join] returns or raises [TypeError], nothing else. *)
Lemma os_path_join_cases (a : value) (p : list value) :
  (exists s, os_path_join a p = Return s)
  \/ os_path_join a p = Raise TypeError.
Proof.
  unfold os_path_join.
  destruct (fspath_cases a) as [[s ->]| ->]; simpl; [|auto].
  destruct (fspaths_cases p) as [[ss ->]| ->]; simpl; eauto.
Qed.

Lemma sample_path_TypeError (cfg : Config) (r : row) :
  valid_mode cfg -> lacks_required_value cfg r ->
  sample_path cfg r = Raise TypeError.
Proof.
  intros Hmode (p & s1 & HP & H1 & H).
  destruct H as [H|[H|(Hp & s2 & H2 & H)]].
  - unfold sample_path, dict_get. rewrite HP, H1. simpl.
    rewrite os_path_join_is_ok_missing by auto. reflexivity.
  - unfold sample_path, dict_get. rewrite HP, H1. simpl.
    rewrite os_path_join_is_ok_missing by auto. reflexivity.
  - rewrite (sample_path_paired _ _ _ _ _ Hp HP H1 H2).
    rewrite (is_ok_missing _ H).
    destruct (os_path_join_cases p [is_ok s1]) as [[path ->]| ->];
      reflexivity.
Qed.

Lemma row_targets_missing (cfg : Config) (i : nat) (r : row)
    (acc : list string) :
  valid_mode cfg -> lacks_required_value cfg r ->
  row_targets cfg i r acc
  = Exit 1 (MissingValues (samples cfg) (i + 1) (dict_values r)).
Proof.
  intros Hm Hr. unfold row_targets, checked_sample_path.
  now rewrite (sample_path_TypeError cfg r Hm Hr).
Qed.

(** The loop ends at the first row whose body fails; the rows before it
    have given their targets. *)
Lemma rows_loop_stops (cfg : Config) (pre : list row) (r : row)
    (post : list row) (failure : outcome (list string)) (s : stream row)
    (i : nat) (acc : list string) :
  yielded s = pre ++ r :: post ->
  Forall (fun r' => exists ts, row_yields cfg r' ts) pre ->
  (forall acc', row_targets cfg (i + length pre) r acc' = failure) ->
  returned failure = None ->
  result (rows_loop cfg i s acc) = failure.
Proof.
  intros Hy Hpre Hfail Hnone. revert s i acc Hy Hfail.
  induction Hpre as [|r' pre [ts Hts] _ IH]; intros s i acc Hy Hfail.
  - destruct s as [n|n|x n rest]; try discriminate.
    simpl in Hy. inversion Hy; subst x. simpl.
    specialize (Hfail acc). rewrite Nat.add_0_r in Hfail. rewrite Hfail.
    destruct failure; [discriminate | reflexivity..].
  - destruct s as [n|n|x n rest]; try discriminate.
    simpl in Hy. inversion Hy; subst x. simpl.
    rewrite (row_targets_yields cfg i r' acc ts Hts).
    apply IH; [assumption|].
    intros acc'. rewrite <- (Hfail acc'). simpl. f_equal. lia.
Qed.

(** C2, as stated, fails: a data row with an empty [PATH] is not reported;
    its targets are returned, relative to the working directory. A sheet
    without the [SAMPLE2] column in paired mode ends in a [KeyError] that no
    handler reports. *)
Lemma empty_path_accepted :
  ~ empty_path_reported (manta_config "s" ["manta"]) empty_path_manifest
  /\ result (make_output (manta_config "s" ["manta"]) empty_path_manifest)
     = Return ["A/manta_out/survivor/manta.vcf"]
  /\ result (make_output (manta_config "p" ["manta"]) single_manifest)
     = Raise (KeyError "SAMPLE2").
Proof.
  split; [|split; vm_compute; reflexivity].
  intros H.
  specialize (H [(Some "PATH", VStr ""); (Some "SAMPLE1", VStr "A")]
                ltac:(vm_compute; reflexivity) ltac:(reflexivity)).
  vm_compute in H. discriminate.
Qed.

(** C2, amended. A data row that has the keys its mode reads and in which
    [PATH] is [None], or [SAMPLE1] is [None] or empty, or in paired mode
    [SAMPLE2] is [None] or empty, reached after rows that gave their
    targets, makes [make_output] print the message with the 1-based record
    number and the values of the row and exit with status 1; nothing is
    returned, by [make_all] neither. *)
Theorem missing_value_reported (cfg : Config) (fp : list string)
    (pre : list row) (r : row) (post : list row) :
  valid_mode cfg ->
  yielded (manifest_rows fp) = pre ++ r :: post ->
  Forall (fun r' => exists ts, row_yields cfg r' ts) pre ->
  lacks_required_value cfg r ->
  result (make_output cfg fp)
  = Exit 1 (MissingValues (samples cfg) (length pre + 1) (dict_values r))
  /\ returned (result (make_output cfg fp)) = None
  /\ make_all cfg fp
     = Exit 1 (MissingValues (samples cfg) (length pre + 1) (dict_values r)).
Proof.
  intros Hm Hy Hpre Hr.
  assert (H : result (make_output cfg fp)
    = Exit 1 (MissingValues (samples cfg) (length pre + 1) (dict_values r))).
  { unfold make_output. rewrite (proj1 (valid_mode_in_s_p cfg) Hm).
    apply (rows_loop_stops cfg pre r post _ _ 0 [] Hy Hpre); [|reflexivity].
    intros acc'. now apply row_targets_missing. }
  unfold make_all. rewrite H. auto.
Qed.

Lemma missing_value_reported_witness :
  yielded (manifest_rows
    ["PATH,SAMPLE1,SAMPLE2" +:+ nl; "runs,A,B" +:+ nl; "runs,C" +:+ nl])
  = [ [(Some "PATH", VStr "runs"); (Some "SAMPLE1", VStr "A");
       (Some "SAMPLE2", VStr "B")] ]
    ++ [(Some "PATH", VStr "runs"); (Some "SAMPLE1", VStr "C");
        (Some "SAMPLE2", VNone)] :: []
  /\ result (make_output (manta_config "p" ["manta"])
       ["PATH,SAMPLE1,SAMPLE2" +:+ nl; "runs,A,B" +:+ nl; "runs,C" +:+ nl])
     = Exit 1 (MissingValues "samples.csv" 2 [VStr "runs"; VStr "C"; VNone]).
Proof.
  assert (Hy : yielded (manifest_rows
    ["PATH,SAMPLE1,SAMPLE2" +:+ nl; "runs,A,B" +:+ nl; "runs,C" +:+ nl])
  = [ [(Some "PATH", VStr "runs"); (Some "SAMPLE1", VStr "A");
       (Some "SAMPLE2", VStr "B")] ]
    ++ [(Some "PATH", VStr "runs"); (Some "SAMPLE1", VStr "C");
        (Some "SAMPLE2", VNone)] :: []) by (vm_compute; reflexivity).
  split; [exact Hy|].
  refine (proj1 (missing_value_reported (manta_config "p" ["manta"]) _ _ _ _
                   _ Hy _ _)).
  - right. reflexivity.
  - constructor; [|constructor].
    exists ["runs/A--B/manta_out/survivor/manta.vcf"], "runs/A--B".
    split; [vm_compute; reflexivity|].
    constructor; [vm_compute; reflexivity | constructor].
  - exists (VStr "runs"), (VStr "C").
    split; [reflexivity|]. split; [reflexivity|].
    right. right. split; [reflexivity|].
    exists VNone. split; [reflexivity | left; reflexivity].
Defined.

(** ** What is read of the manifest *)

Lemma pulls_above_weaken {A} (k k' : nat) (s : stream A) :
  k' <= k -> pulls_above k s -> pulls_above k' s.
Proof. destruct s; simpl; intros; intuition lia. Qed.

Lemma records_pulls (lines : list string) (rd : Csv.Reader) (k : nat) :
  pulls_above k (Csv.records rd lines k).
Proof.
  revert rd k. induction lines as [|line rest IH]; intros rd k; simpl.
  - destruct (_ || _); simpl; lia.
  - destruct (Csv.feed rd line) as [rd'|]; simpl; [|lia].
    destruct (Csv.at_record_start rd'); simpl.
    + split; [lia | apply IH].
    + eapply pulls_above_weaken; [|apply IH]. lia.
Qed.

Lemma DictReader_rows_pulls (fieldnames : list string)
    (s : stream (list string)) (k : nat) :
  pulls_above k s -> pulls_above k (DictReader_rows fieldnames s).
Proof.
  revert k. induction s as [n|n|x n rest IH]; simpl; intros k H; try exact H.
  destruct H as [Hk H]. destruct x as [|f record]; simpl.
  - apply IH. eapply pulls_above_weaken; [|exact H]. lia.
  - split; [exact Hk | now apply IH].
Qed.

Lemma records_yielded (lines : list string) (rd : Csv.Reader) (k : nat) :
  length (yielded (Csv.records rd lines k))
  <= length lines + (if inside_record rd then 1 else 0).
Proof.
  revert rd k. induction lines as [|line rest IH]; intros rd k; simpl.
  - unfold inside_record. destruct (_ || _); simpl; lia.
  - destruct (Csv.feed rd line) as [rd'|]; simpl; [|lia].
    destruct (Csv.at_record_start rd'); simpl.
    + specialize (IH Csv.parse_reset (S k)). simpl in IH. lia.
    + specialize (IH rd' (S k)). destruct (inside_record rd'); lia.
Qed.

Lemma DictReader_rows_yielded (fieldnames : list string)
    (s : stream (list string)) :
  length (yielded (DictReader_rows fieldnames s)) <= length (yielded s).
Proof.
  induction s as [n|n|x n rest IH]; simpl; try lia.
  destruct x; simpl; lia.
Qed.

Lemma consumed_by_uncommented (fp : list string) (k : nat) :
  Nat.min k (length (uncommented fp)) <= consumed_by k fp.
Proof.
  revert k. induction fp as [|line fp IH]; intros k.
  - destruct k; simpl; lia.
  - destruct k as [|k]; [simpl; lia|].
    unfold uncommented in *. rewrite filter_cons. cbn [consumed_by].
    destruct (startswith "#" line) eqn:E.
    + rewrite decide_False by discriminate.
      specialize (IH (S k)). lia.
    + rewrite decide_True by reflexivity. cbn [length].
      specialize (IH k). lia.
Qed.

(** A data row is yielded after the header and the row have been read: two
    lines of the manifest at least. *)
Lemma first_row_read (fp : list string) (r : row) (n : nat)
    (rest : stream row) :
  manifest_rows fp = Yield r n rest -> 2 <= consumed_by n fp.
Proof.
  unfold manifest_rows, DictReader, Csv.reader. intros H.
  pose proof (records_pulls (uncommented fp) Csv.parse_reset 0) as Hp.
  pose proof (records_yielded (uncommented fp) Csv.parse_reset 0) as Hy.
  destruct (Csv.records Csv.parse_reset (uncommented fp) 0)
    as [k|k|header k rows]; try discriminate.
  simpl in Hp, Hy. destruct Hp as [Hk Hp].
  apply (DictReader_rows_pulls header) in Hp.
  pose proof (DictReader_rows_yielded header rows) as Hy'.
  rewrite H in Hp, Hy'. simpl in Hp, Hy'.
  pose proof (consumed_by_uncommented fp n). lia.
Qed.

(** ** Unsupported callers *)

(** C1, as stated, fails: with the unsupported caller [lumpy] enabled, a
    sheet without data rows gives the empty list and no error; with a data
    row the error is raised after three lines of the manifest were read. *)
Lemma callers_checked_inside_the_loop :
  ~ checked_before_reading (manta_config "p" ["manta"; "lumpy"]) header_only
  /\ ~ checked_before_reading (manta_config "p" ["manta"; "lumpy"])
         paired_manifest
  /\ result (make_output (manta_config "p" ["manta"; "lumpy"]) header_only)
     = Return []
  /\ result (make_output (manta_config "p" ["manta"; "lumpy"]) paired_manifest)
     = Raise (AssertionError (UnsupportedCaller "lumpy"))
  /\ lines_read (manta_config "p" ["manta"; "lumpy"]) paired_manifest = 3.
Proof.
  assert (Hc : exists c,
    c ∈ enable_callers (manta_config "p" ["manta"; "lumpy"])
    /\ callers (manta_config "p" ["manta"; "lumpy"]) !! c = None).
  { exists "lumpy". split; [|vm_compute; reflexivity].
    apply list_elem_of_further, list_elem_of_here. }
  split; [|split]; [| |repeat split; vm_compute; reflexivity].
  - intros H. destruct (H Hc) as [[c H1] _].
    vm_compute in H1. discriminate.
  - intros H. destruct (H Hc) as [_ H2].
    vm_compute in H2. discriminate.
Qed.

(** C1, amended. With a valid mode and an enabled caller that is not
    supported, [make_output] returns targets for no manifest but one without
    data rows, which gives the empty list. When the first data row is valid,
    the call raises the [AssertionError] of an enabled, unsupported caller
    while it handles that row: the header and the row, two lines at least,
    have been read from the manifest by then. *)
Theorem unsupported_caller_raised_at_first_row (cfg : Config)
    (fp : list string) (c : string) :
  valid_mode cfg -> c ∈ enable_callers cfg -> callers cfg !! c = None ->
  (forall outs, result (make_output cfg fp) = Return outs ->
     outs = [] /\ yielded (manifest_rows fp) = [])
  /\ (yielded (manifest_rows fp) = [] -> exhausted (manifest_rows fp) = true ->
      result (make_output cfg fp) = Return [])
  /\ (forall r n rest,
        manifest_rows fp = Yield r n rest -> valid_row cfg r ->
        exists c', c' ∈ enable_callers cfg /\ callers cfg !! c' = None
          /\ result (make_output cfg fp)
             = Raise (AssertionError (UnsupportedCaller c'))
          /\ pulls (make_output cfg fp) = n
          /\ 2 <= lines_read cfg fp).
Proof.
  intros Hm Hin Hc. apply valid_mode_in_s_p in Hm.
  unfold lines_read, make_output. rewrite Hm. repeat split.
  - apply rows_loop_Return in H as (_ & tss & HF & ->).
    destruct HF as [|r ts rows tss (path & _ & HF) _]; [reflexivity|].
    apply targets_supported in HF.
    rewrite Forall_forall in HF. destruct (HF c Hin). congruence.
  - apply rows_loop_Return in H as (_ & tss & HF & ->).
    destruct HF as [|r ts rows tss (path & _ & HF) _]; [reflexivity|].
    apply targets_supported in HF.
    rewrite Forall_forall in HF. destruct (HF c Hin). congruence.
  - intros Hy Hex. apply (rows_loop_all cfg _ 0 [] [] Hex).
    rewrite Hy. constructor.
  - intros r n rest Hrows [path Hp].
    destruct (get_callers_from_unsupported cfg _ c Hin Hc)
      as (c' & Hin' & Hc' & Hraise).
    exists c'. split; [exact Hin'|]. split; [exact Hc'|].
    assert (Hrow : row_targets cfg 0 r []
                   = Raise (AssertionError (UnsupportedCaller c'))).
    { unfold row_targets, get_callers.
      rewrite (proj2 (checked_sample_path_Return cfg 0 r path) Hp). simpl.
      now rewrite Hraise. }
    rewrite Hrows. simpl. rewrite Hrow. simpl.
    repeat split. eapply first_row_read, Hrows.
Qed.

Lemma unsupported_caller_raised_at_first_row_witness :
  valid_mode (manta_config "p" ["manta"; "lumpy"])
  /\ "lumpy" ∈ enable_callers (manta_config "p" ["manta"; "lumpy"])
  /\ callers (manta_config "p" ["manta"; "lumpy"]) !! "lumpy" = None
  /\ result (make_output (manta_config "p" ["manta"; "lumpy"]) header_only)
     = Return []
  /\ exists c',
       result (make_output (manta_config "p" ["manta"; "lumpy"])
                 paired_manifest)
       = Raise (AssertionError (UnsupportedCaller c'))
       /\ 2 <= lines_read (manta_config "p" ["manta"; "lumpy"])
                 paired_manifest.
Proof.
  assert (Hm : valid_mode (manta_config "p" ["manta"; "lumpy"]))
    by (right; reflexivity).
  assert (Hin : "lumpy" ∈ enable_callers (manta_config "p" ["manta"; "lumpy"]))
    by apply list_elem_of_further, list_elem_of_here.
  assert (Hc : callers (manta_config "p" ["manta"; "lumpy"]) !! "lumpy" = None)
    by (vm_compute; reflexivity).
  split; [exact Hm|]. split; [exact Hin|]. split; [exact Hc|]. split.
  - refine (proj1 (proj2 (unsupported_caller_raised_at_first_row
                            _ header_only _ Hm Hin Hc)) _ _);
      vm_compute; reflexivity.
  - destruct (proj2 (proj2 (unsupported_caller_raised_at_first_row
                              _ paired_manifest _ Hm Hin Hc))
                [(Some "PATH", VStr "runs"); (Some "SAMPLE1", VStr "A");
                 (Some "SAMPLE2", VStr "B")] 2 (Stop 3))
      as (c' & _ & _ & Hraise & _ & Hread).
    + vm_compute. reflexivity.
    + exists "runs/A--B". vm_compute. reflexivity.
    + exists c'. split; [exact Hraise | exact Hread].
Defined.

(** ** Single mode and the second sample *)

Lemma sample_path_single_agree (cfg : Config) (r r' : row) :
  mode cfg = VStr "s" -> differ_only_in "SAMPLE2" r r' ->
  sample_path cfg r = sample_path cfg r'.
Proof.
  intros Hm H. unfold sample_path, dict_get.
  rewrite <- (H (Some "PATH")), <- (H (Some "SAMPLE1")) by discriminate.
  rewrite Hm. reflexivity.
Qed.

Lemma row_targets_single_agree (cfg : Config) (i : nat) (r r' : row)
    (acc : list string) :
  mode cfg = VStr "s" -> differ_only_in "SAMPLE2" r r' ->
  row_targets cfg i r acc = row_targets cfg i r' acc
  \/ exists st f j v v',
       row_targets cfg i r acc = Exit st (MissingValues f j v)
       /\ row_targets cfg i r' acc = Exit st (MissingValues f j v').
Proof.
  intros Hm H. unfold row_targets, checked_sample_path.
  rewrite <- (sample_path_single_agree cfg r r' Hm H).
  destruct (sample_path cfg r) as [path|e|st msg]; simpl; auto.
  destruct e; simpl; auto. right. eauto 10.
Qed.

Lemma rows_loop_single_agree (cfg : Config) (s s' : stream row) (i : nat)
    (acc : list string) :
  mode cfg = VStr "s" -> stream_rel (differ_only_in "SAMPLE2") s s' ->
  forget_values (result (rows_loop cfg i s acc))
  = forget_values (result (rows_loop cfg i s' acc)).
Proof.
  intros Hm H. revert i acc.
  induction H as [n n'|n n'|r r' n n' s s' Hr _ IH]; intros i acc; simpl;
    try reflexivity.
  destruct (row_targets_single_agree cfg i r r' acc Hm Hr)
    as [E|(st & f & j & v & v' & E & E')].
  - rewrite <- E. destruct (row_targets cfg i r acc); simpl; auto.
  - rewrite E, E'. reflexivity.
Qed.

Lemma forget_values_returned {A} (o o' : outcome A) :
  forget_values o = forget_values o' -> returned o = returned o'.
Proof.
  destruct o as [a|e|st [ | | |f i v]], o' as [a'|e'|st' [ | | |f' i' v']];
    simpl; intros H; try discriminate; try reflexivity.
  now inversion H.
Qed.

(** C9. In single mode [SAMPLE2] is not read: rows that differ in nothing but
    their [SAMPLE2] entry, which may be there, be empty or be absent, give
    the same sample path or the same failure, and two manifests whose rows
    differ in this way give the same list of targets, or fail alike, at the
    same record. *)
Theorem single_mode_ignores_SAMPLE2 (cfg : Config) (fp fp' : list string) :
  mode cfg = VStr "s" ->
  stream_rel (differ_only_in "SAMPLE2") (manifest_rows fp) (manifest_rows fp') ->
  returned (result (make_output cfg fp))
  = returned (result (make_output cfg fp'))
  /\ forget_values (result (make_output cfg fp))
     = forget_values (result (make_output cfg fp'))
  /\ forall r r', differ_only_in "SAMPLE2" r r' ->
       sample_path cfg r = sample_path cfg r'.
Proof.
  intros Hm H.
  assert (E : forget_values (result (make_output cfg fp))
              = forget_values (result (make_output cfg fp'))).
  { unfold make_output. rewrite Hm. simpl.
    now apply rows_loop_single_agree. }
  split; [now apply forget_values_returned|]. split; [exact E|].
  intros r r'. now apply sample_path_single_agree.
Qed.

Lemma single_mode_ignores_SAMPLE2_witness :
  returned (result (make_output (manta_config "s" ["manta"]) paired_manifest))
  = returned (result (make_output (manta_config "s" ["manta"]) single_manifest))
  /\ returned (result (make_output (manta_config "s" ["manta"])
                        single_manifest))
     = Some ["runs/A/manta_out/survivor/manta.vcf"].
Proof.
  split; [|vm_compute; reflexivity].
  refine (proj1 (single_mode_ignores_SAMPLE2 (manta_config "s" ["manta"])
                   paired_manifest single_manifest eq_refl _)).
  replace (manifest_rows paired_manifest)
    with (Yield [(Some "PATH", VStr "runs"); (Some "SAMPLE1", VStr "A");
                 (Some "SAMPLE2", VStr "B")] 2 (Stop 3))
    by (vm_compute; reflexivity).
  replace (manifest_rows single_manifest)
    with (Yield [(Some "PATH", VStr "runs"); (Some "SAMPLE1", VStr "A")]
                2 (Stop 3))
    by (vm_compute; reflexivity).
  apply stream_rel_Yield; [|apply stream_rel_Stop].
  intros k Hk. simpl. repeat case_decide; congruence.
Defined.

(** * Further properties of the module *)

(** ** The enabled callers *)

(** X1. [get_callers] returns exactly when every enabled name is in the
    supported mapping, and what it returns is the enabled list itself, in its
    order and with its repetitions. *)
Theorem get_callers_all_or_nothing (cfg : Config) (cs : list string) :
  get_callers cfg = Return cs
  <-> cs = enable_callers cfg
      /\ forall c, c ∈ enable_callers cfg -> is_Some (callers cfg !! c).
Proof.
  unfold get_callers. split.
  - intros H. apply get_callers_from_Return in H as [-> HF].
    split; [reflexivity|]. now apply Forall_forall.
  - intros [-> HF]. apply Forall_forall in HF.
    now rewrite (get_callers_from_supported cfg _ [] HF).
Qed.

(** X2. When some enabled name is not supported, the [AssertionError] names
    the first such name of the list; the names after it are not looked
    at. *)
Theorem get_callers_first_unsupported (cfg : Config)
    (pre : list string) (c : string) (post : list string) :
  enable_callers cfg = pre ++ c :: post ->
  Forall (fun x => is_Some (callers cfg !! x)) pre ->
  callers cfg !! c = None ->
  get_callers cfg = Raise (AssertionError (UnsupportedCaller c)).
Proof.
  intros He Hpre Hc. unfold get_callers. rewrite He. clear He.
  generalize (@nil string). 
  induction Hpre as [|x pre [st Hx] _ IH]; intros acc; simpl.
  - now rewrite Hc.
  - rewrite Hx. apply IH.
Qed.

Lemma get_callers_first_unsupported_witness :
  enable_callers (manta_config "p" ["manta"; "lumpy"; "delly"; "gridss"])
  = ["manta"] ++ "lumpy" :: ["delly"; "gridss"]
  /\ get_callers (manta_config "p" ["manta"; "lumpy"; "delly"; "gridss"])
     = Raise (AssertionError (UnsupportedCaller "lumpy")).
Proof.
  split; [reflexivity|].
  apply (get_callers_first_unsupported _ ["manta"] "lumpy" ["delly"; "gridss"]).
  - reflexivity.
  - constructor; [|constructor]. vm_compute. eauto.
  - vm_compute. reflexivity.
Defined.

(** ** Suffixes *)

Lemma endswith_unfold (sfx s : string) :
  endswith sfx s
  = if String.eqb s sfx then true
    else match s with
         | EmptyString => false
         | String _ s' => endswith sfx s'
         end.
Proof. destruct s; reflexivity. Qed.

Lemma endswith_iff (sfx s : string) :
  endswith sfx s = true <-> exists p, s = p +:+ sfx.
Proof.
  split.
  - induction s as [|c s IH]; rewrite endswith_unfold; intros H.
    + destruct (String.eqb_spec "" sfx) as [E|]; [|discriminate].
      exists "". exact E.
    + destruct (String.eqb_spec (String c s) sfx) as [E|].
      * exists "". exact E.
      * destruct (IH H) as [p ->]. now exists (String c p).
  - intros [p ->]. induction p as [|c p IH]; rewrite endswith_unfold.
    + change ("" +:+ sfx) with sfx. now rewrite String.eqb_refl.
    + rewrite append_cons, IH. now destruct (String.eqb _ _).
Qed.

Lemma endswith_append (p sfx : string) : endswith sfx (p +:+ sfx) = true.
Proof. apply endswith_iff. now exists p. Qed.

(** X3. With a string registered as the extension, [get_bam] and [get_bai]
    return a name that ends with it: the sample itself when it already ends
    with the extension, the sample followed by the extension otherwise.
    Applied to their own result they change nothing. *)
Theorem get_bam_get_bai_append_once (cfg : Config) (sample : string) :
  (forall sfx, file_exts cfg !! "bam" = Some (VStr sfx) ->
     exists file,
       get_bam cfg sample = Return file
       /\ endswith sfx file = true
       /\ (file = sample \/ endswith sfx sample = false
                            /\ file = sample +:+ sfx)
       /\ get_bam cfg file = Return file)
  /\ (forall sfx, file_exts cfg !! "bam_idx" = Some (VStr sfx) ->
        exists file,
          get_bai cfg sample = Return file
          /\ endswith sfx file = true
          /\ (file = sample \/ endswith sfx sample = false
                               /\ file = sample +:+ sfx)
          /\ get_bai cfg file = Return file).
Proof.
  split; intros sfx He; unfold get_bam, get_bai, get_filext;
    rewrite He; simpl.
  - destruct (endswith sfx sample) eqn:E; simpl.
    + exists sample. simpl. rewrite E. repeat split; auto.
    + exists (sample +:+ sfx). simpl. rewrite endswith_append.
      repeat split; auto.
  - destruct (endswith sfx sample) eqn:E; simpl.
    + exists sample. simpl. rewrite E. repeat split; auto.
    + exists (sample +:+ sfx). simpl. rewrite endswith_append.
      repeat split; auto.
Qed.

Lemma get_bam_get_bai_append_once_witness :
  get_bam hg19_config "tumor" = Return "tumor.bam"
  /\ get_bam hg19_config "tumor.bam" = Return "tumor.bam"
  /\ get_bai hg19_config "tumor" = Return "tumor.bam.bai".
Proof.
  destruct (proj1 (get_bam_get_bai_append_once hg19_config "tumor") ".bam"
              eq_refl) as (file & Hf & _ & Hcase & Hidem).
  destruct (proj2 (get_bam_get_bai_append_once hg19_config "tumor") ".bam.bai"
              eq_refl) as (file' & Hf' & _ & Hcase' & _).
  destruct Hcase as [->|[_ ->]]; [vm_compute in Hf; discriminate|].
  destruct Hcase' as [->|[_ ->]]; [vm_compute in Hf'; discriminate|].
  split; [exact Hf|]. split; [exact Hidem | exact Hf'].
Defined.

(** An extension that is not a string, such as the list registered for the
    index files, makes the two functions raise [TypeError]. *)
Lemma get_bam_list_extension (cfg : Config) (sample : string)
    (l : list string) :
  file_exts cfg !! "bam" = Some (VList l) ->
  get_bam cfg sample = Raise TypeError.
Proof. intros He. unfold get_bam, get_filext. now rewrite He. Qed.

(** ** Flags *)

Example float_zeros_and_one :
  float_eq_int (SpecFloat.S754_zero false) 0 = true
  /\ float_eq_int (SpecFloat.S754_zero true) 0 = true
  /\ float_eq_int float_one 1 = true
  /\ float_eq_int float_one 0 = false
  /\ float_eq_int SpecFloat.S754_nan 1 = false
  /\ float_eq_int (SpecFloat.S754_finite false 1 1) 1 = false.
Proof. repeat split. Qed.

Lemma in_0_1_plain (v : value) :
  in_0_1 (Plain v) = true <-> v = VInt 0 \/ v = VInt 1 \/ exists b, v = VBool b.
Proof.
  destruct v as [|b|z|s|l]; simpl.
  - split; [discriminate | intros [?|[?|[? ?]]]; discriminate].
  - split; eauto.
  - rewrite orb_true_iff, !Z.eqb_eq. split.
    + intros [->| ->]; auto.
    + intros [H|[H|[b H]]]; inversion H; auto.
  - split; [discriminate | intros [?|[?|[? ?]]]; discriminate].
  - split; [discriminate | intros [?|[?|[? ?]]]; discriminate].
Qed.

Lemma in_0_1_true (v : scalar) :
  in_0_1 v = true
  <-> v = Plain (VInt 0) \/ v = Plain (VInt 1)
      \/ (exists b, v = Plain (VBool b))
      \/ exists f, v = Float f
                   /\ (float_eq_int f 0 = true \/ float_eq_int f 1 = true).
Proof.
  destruct v as [v|f].
  - rewrite in_0_1_plain. split.
    + intros [->|[->|[b ->]]]; eauto.
    + intros [H|[H|[[b H]|(f & H & _)]]]; inversion H; eauto.
  - simpl. rewrite orb_true_iff. split.
    + intros H. right. right. right. eauto.
    + intros [H|[H|[[b H]|(f' & H & Hf)]]]; inversion H. subst. exact Hf.
Qed.

(** X4. Without the key [exclude_regions] in the document a [KeyError]
    escapes from [exclude_regions]. With the key, the flag is returned, as
    it is, exactly when [in (0, 1)] accepts it: the integers 0 and 1, the
    Booleans, and the floats whose value is 0 or 1; for any other flag the
    function prints its message and exits with status 1. *)
Theorem exclude_regions_zero_or_one (doc : Analysis) :
  (exclude_regions_value doc = None ->
   exclude_regions doc = Raised (Propagated (KeyError "exclude_regions")))
  /\ (forall v, exclude_regions doc = Passed v
        <-> exclude_regions_value doc = Some v
            /\ (v = Plain (VInt 0) \/ v = Plain (VInt 1)
                \/ (exists b, v = Plain (VBool b))
                \/ exists f, v = Float f
                             /\ (float_eq_int f 0 = true
                                 \/ float_eq_int f 1 = true)))
  /\ (forall v, exclude_regions_value doc = Some v ->
        exclude_regions doc = Passed v
        \/ exclude_regions doc = Exited 1 InvalidExcludeRegions).
Proof.
  unfold exclude_regions. split; [|split].
  - intros ->. reflexivity.
  - intros v. destruct (exclude_regions_value doc) as [excl|]; simpl.
    + pose proof (in_0_1_true excl) as H.
      destruct (in_0_1 excl); simpl; split.
      * intros E. inversion E; subst. split; [reflexivity|]. now apply H.
      * intros [E _]. now inversion E.
      * discriminate.
      * intros [E Hv]. inversion E; subst. apply H in Hv. discriminate.
    + split; [discriminate | intros [E _]; discriminate].
  - intros v ->. simpl. destruct (in_0_1 v); simpl; auto.
Qed.

Lemma exclude_regions_zero_or_one_witness :
  exclude_regions_value hg19_masked = Some (Float float_one)
  /\ exclude_regions hg19_masked = Passed (Float float_one).
Proof.
  split; [reflexivity|].
  apply (proj2 (proj1 (proj2 (exclude_regions_zero_or_one hg19_masked))
                  (Float float_one))).
  split; [reflexivity|]. right. right. right.
  exists float_one. split; [reflexivity | right; reflexivity].
Defined.

(** X5. [is_tumor_only] reads the settings of [manta] whether or not the
    caller is enabled: without the caller or without its [tumor_only] key a
    [KeyError] escapes. A value that is the integer 0 or 1 or a Boolean is
    returned as it is; [None], a string, a list and an integer other than 0
    and 1 end the process with status 1. *)
Theorem is_tumor_only_outcomes (doc : Analysis) :
  (callers (settings doc) !! "manta" = None ->
   is_tumor_only doc = Raised (Propagated (KeyError "manta")))
  /\ (forall st, callers (settings doc) !! "manta" = Some st ->
        (st !! "tumor_only" = None ->
         is_tumor_only doc = Raised (Propagated (KeyError "tumor_only")))
        /\ (forall v, st !! "tumor_only" = Some v ->
              (v = VInt 0 \/ v = VInt 1 \/ (exists b, v = VBool b) ->
               is_tumor_only doc = Passed v)
              /\ (v = VNone \/ (exists s, v = VStr s) \/ (exists l, v = VList l)
                  \/ (exists z, v = VInt z /\ z <> 0%Z /\ z <> 1%Z) ->
                  is_tumor_only doc = Exited 1 InvalidTumorOnly))).
Proof.
  unfold is_tumor_only, caller_settings. split.
  - intros ->. reflexivity.
  - intros st ->. simpl. split.
    + intros ->. reflexivity.
    + intros v ->. split; intros Hv.
      * destruct Hv as [->|[->|[b ->]]]; reflexivity.
      * destruct Hv as [->|[[s ->]|[[l ->]|(z & -> & H0 & H1)]]];
          try reflexivity.
        simpl. apply Z.eqb_neq in H0, H1. now rewrite H0, H1.
Qed.

Lemma is_tumor_only_outcomes_witness :
  callers (settings hg19) !! "manta"
  = Some {[ "outdir" := VStr "manta_out"; "tumor_only" := VBool true ]}
  /\ is_tumor_only hg19 = Passed (VBool true).
Proof.
  assert (H : callers (settings hg19) !! "manta"
    = Some {[ "outdir" := VStr "manta_out"; "tumor_only" := VBool true ]})
    by (vm_compute; reflexivity).
  split; [exact H|].
  apply (proj1 (proj2 (proj2 (is_tumor_only_outcomes hg19) _ H)
                  (VBool true) ltac:(vm_compute; reflexivity))).
  right. right. now exists true.
Defined.

(** ** Reference files *)

(** X6. [get_fasta] returns the configured reference, and only when the file
    exists and its name ends with the string registered as the FASTA
    extension. The existence check comes first: a missing file is reported
    as such whatever is registered as the extension. An extension missing
    from the table raises the [AssertionError] of [get_filext], which the
    handler of [get_fasta] does not see. *)
Theorem get_fasta_checks (doc : Analysis) (path_exists : string -> bool) :
  (forall f, get_fasta doc path_exists = Passed f
     <-> f = genome doc /\ path_exists f = true
         /\ exists sfx, file_exts (settings doc) !! "fasta" = Some (VStr sfx)
                        /\ endswith sfx f = true)
  /\ (forall v, file_exts (settings doc) !! "fasta" = Some v ->
        path_exists (genome doc) = false ->
        get_fasta doc path_exists = Exited 1 (FastaNotFound (genome doc)))
  /\ (forall sfx, file_exts (settings doc) !! "fasta" = Some (VStr sfx) ->
        path_exists (genome doc) = true ->
        endswith sfx (genome doc) = false ->
        get_fasta doc path_exists
        = Exited 1 (FastaNotRegistered (genome doc)))
  /\ (file_exts (settings doc) !! "fasta" = None ->
      get_fasta doc path_exists
      = Raised (Propagated (AssertionError (UnknownFormat "fasta")))).
Proof.
  unfold get_fasta, get_filext.
  split; [|split; [|split]].
  - intros f. split.
    + intros H.
      destruct (file_exts (settings doc) !! "fasta") as [v|]; simpl in H;
        [|discriminate].
      destruct (path_exists (genome doc)) eqn:Ex; simpl in H; [|discriminate].
      destruct v as [| | |sfx|]; simpl in H; try discriminate.
      destruct (endswith sfx (genome doc)) eqn:Ee; simpl in H; [|discriminate].
      inversion H; subst f. eauto.
    + intros (-> & Hex & sfx & -> & He). simpl. rewrite Hex. simpl.
      now rewrite He.
  - intros v -> ->. reflexivity.
  - intros sfx -> -> He. simpl. now rewrite He.
  - intros ->. reflexivity.
Qed.

Lemma get_fasta_checks_witness :
  get_fasta hg19 (holds ["data/gaps.bed"])
  = Exited 1 (FastaNotFound "data/hg19.fasta").
Proof.
  apply (proj1 (proj2 (get_fasta_checks hg19 (holds ["data/gaps.bed"])))
           (VStr ".fasta"));
    vm_compute; reflexivity.
Defined.

(** X7. [get_bed] returns the configured exclusion file, and only when the
    file exists and its name ends with the string registered as the BED
    extension; a missing file is reported before the suffix is looked at,
    and the message about the suffix quotes it. *)
Theorem get_bed_checks (doc : Analysis) (path_exists : string -> bool) :
  (forall f, get_bed doc path_exists = Passed f
     <-> f = exclusion_list doc /\ path_exists f = true
         /\ exists sfx, file_exts (settings doc) !! "bed" = Some (VStr sfx)
                        /\ endswith sfx f = true)
  /\ (forall v, file_exts (settings doc) !! "bed" = Some v ->
        path_exists (exclusion_list doc) = false ->
        get_bed doc path_exists
        = Exited 1 (ExclusionNotFound (exclusion_list doc)))
  /\ (forall sfx, file_exts (settings doc) !! "bed" = Some (VStr sfx) ->
        path_exists (exclusion_list doc) = true ->
        endswith sfx (exclusion_list doc) = false ->
        get_bed doc path_exists
        = Exited 1 (ExclusionSuffix (exclusion_list doc) (VStr sfx))).
Proof.
  unfold get_bed, get_filext.
  split; [|split].
  - intros f. split.
    + intros H.
      destruct (file_exts (settings doc) !! "bed") as [v|]; simpl in H;
        [|discriminate].
      destruct (path_exists (exclusion_list doc)) eqn:Ex; simpl in H;
        [|discriminate].
      destruct v as [| | |sfx|]; simpl in H; try discriminate.
      destruct (endswith sfx (exclusion_list doc)) eqn:Ee; simpl in H;
        [|discriminate].
      inversion H; subst f. eauto.
    + intros (-> & Hex & sfx & -> & He). simpl. rewrite Hex. simpl.
      now rewrite He.
  - intros v -> ->. reflexivity.
  - intros sfx -> -> He. simpl. now rewrite He.
Qed.

Lemma get_bed_checks_witness :
  get_bed hg19 (holds ["data/gaps.bed"]) = Passed "data/gaps.bed".
Proof.
  apply (proj2 (proj1 (get_bed_checks hg19 (holds ["data/gaps.bed"]))
                  "data/gaps.bed")).
  split; [reflexivity|]. split; [vm_compute; reflexivity|].
  exists ".bed". split; vm_compute; reflexivity.
Defined.

(** ** Index files of the reference *)

Lemma split_head_unfold (sep s : string) :
  split_head sep s
  = if startswith sep s then EmptyString
    else match s with
         | EmptyString => EmptyString
         | String c s' => String c (split_head sep s')
         end.
Proof. destruct s; reflexivity. Qed.

Lemma startswith_append (p s : string) : startswith p (p +:+ s) = true.
Proof.
  unfold startswith. induction p as [|c p IH].
  - change ("" +:+ s) with s. now destruct s.
  - rewrite append_cons. simpl. now destruct (ascii_dec c c).
Qed.

Lemma has_char_false_cons (c a : ascii) (s : string) :
  has_char c (String a s) = false -> a <> c /\ has_char c s = false.
Proof.
  simpl. intros H. apply orb_false_iff in H as [H1 H2].
  split; [|exact H2]. now apply Ascii.eqb_neq.
Qed.

(** What stands before the extension is found again when the first character
    of the extension does not occur in it. *)
Lemma split_head_clear (stem : string) (e0 : ascii) (ext' rest : string) :
  has_char e0 stem = false ->
  split_head (String e0 ext') (stem +:+ String e0 ext' +:+ rest) = stem.
Proof.
  intros H. induction stem as [|c stem IH]; rewrite split_head_unfold.
  - change ("" +:+ String e0 ext' +:+ rest)
      with (String e0 ext' +:+ rest).
    now rewrite startswith_append.
  - apply has_char_false_cons in H as [Hc H].
    rewrite append_cons. unfold startswith at 1. simpl.
    destruct (ascii_dec e0 c) as [E|_]; [congruence|].
    now rewrite IH.
Qed.

Lemma get_faidx_from_all (doc : Analysis) (path_exists : string -> bool)
    (f ext : string) (sfxs acc : list string) :
  get_fasta doc path_exists = Passed f ->
  file_exts (settings doc) !! "fasta" = Some (VStr ext) -> ext <> "" ->
  Forall (fun sfx => path_exists (split_head ext f +:+ sfx) = true) sfxs ->
  get_faidx_from doc path_exists sfxs acc
  = Passed (acc ++ ((fun sfx => split_head ext f +:+ sfx) <$> sfxs)).
Proof.
  intros Hf He Hne HF. revert acc.
  induction HF as [|sfx sfxs Hx _ IH]; intros acc; simpl.
  - now rewrite app_nil_r.
  - rewrite Hf. unfold get_filext. rewrite He. simpl.
    destruct ext as [|e0 ext']; [congruence|]. simpl.
    rewrite Hx. simpl. rewrite IH, <- app_assoc. reflexivity.
Qed.

Lemma get_faidx_from_missing (doc : Analysis) (path_exists : string -> bool)
    (f ext : string) (pre : list string) (sfx : string)
    (post acc : list string) :
  get_fasta doc path_exists = Passed f ->
  file_exts (settings doc) !! "fasta" = Some (VStr ext) -> ext <> "" ->
  Forall (fun x => path_exists (split_head ext f +:+ x) = true) pre ->
  path_exists (split_head ext f +:+ sfx) = false ->
  get_faidx_from doc path_exists (pre ++ sfx :: post) acc
  = Exited 1 (FastaIndexNotFound (split_head ext f +:+ sfx)).
Proof.
  intros Hf He Hne HF Hx. revert acc.
  induction HF as [|x pre Hp _ IH]; intros acc; simpl.
  - rewrite Hf. unfold get_filext. rewrite He. simpl.
    destruct ext as [|e0 ext']; [congruence|]. simpl.
    now rewrite Hx.
  - rewrite Hf. unfold get_filext. rewrite He. simpl.
    destruct ext as [|e0 ext']; [congruence|]. simpl.
    rewrite Hp. simpl. apply IH.
Qed.

(** X8. When the reference passes [get_fasta], the first character of the
    FASTA extension does not occur in front of its first place in the name,
    and every index file exists, [get_faidx] returns one name per registered
    suffix, in the order of the suffixes: what stands in front of the
    extension, followed by the suffix. What follows the first place of the
    extension in the name of the reference is not part of them. A suffix
    entry that is a string instead of a list is gone through character by
    character. *)
Theorem get_faidx_beside_reference (doc : Analysis)
    (path_exists : string -> bool) (stem : string) (e0 : ascii)
    (ext' rest : string) (v : value) (sfxs : list string) :
  genome doc = stem +:+ String e0 ext' +:+ rest ->
  has_char e0 stem = false ->
  get_fasta doc path_exists = Passed (genome doc) ->
  file_exts (settings doc) !! "fasta" = Some (VStr (String e0 ext')) ->
  file_exts (settings doc) !! "fasta_idx" = Some v ->
  iterate v = Return sfxs ->
  Forall (fun sfx => path_exists (stem +:+ sfx) = true) sfxs ->
  get_faidx doc path_exists = Passed ((fun sfx => stem +:+ sfx) <$> sfxs).
Proof.
  intros Hg Hstem Hf He Hi Hv HF.
  unfold get_faidx, get_filext. rewrite Hi. simpl. rewrite Hv. simpl.
  pose proof (split_head_clear stem e0 ext' rest Hstem) as Hs.
  rewrite <- Hg in Hs.
  rewrite (get_faidx_from_all doc path_exists (genome doc) (String e0 ext')
             sfxs [] Hf He ltac:(discriminate)).
  - now rewrite Hs.
  - now rewrite Hs.
Qed.

Lemma get_faidx_beside_reference_witness :
  get_faidx hg19_masked
    (holds ["data/hg19.fasta.masked.fasta"; "data/hg19.fasta.fai";
            "data/hg19.fasta.bwt"])
  = Passed ["data/hg19.fasta.fai"; "data/hg19.fasta.bwt"].
Proof.
  apply (get_faidx_beside_reference hg19_masked _ "data/hg19" "."
           "fasta" ".masked.fasta"
           (VList [".fasta.fai"; ".fasta.bwt"]) [".fasta.fai"; ".fasta.bwt"]);
    try (vm_compute; reflexivity).
  repeat constructor.
Defined.

(** X9. The index files are looked for in the order of the suffixes: at the
    first one that does not exist, [get_faidx] prints its name and exits with
    status 1, and no list is returned. *)
Theorem get_faidx_first_missing (doc : Analysis)
    (path_exists : string -> bool) (f ext : string) (v : value)
    (pre : list string) (sfx : string) (post : list string) :
  get_fasta doc path_exists = Passed f ->
  file_exts (settings doc) !! "fasta" = Some (VStr ext) -> ext <> "" ->
  file_exts (settings doc) !! "fasta_idx" = Some v ->
  iterate v = Return (pre ++ sfx :: post) ->
  Forall (fun x => path_exists (split_head ext f +:+ x) = true) pre ->
  path_exists (split_head ext f +:+ sfx) = false ->
  get_faidx doc path_exists
  = Exited 1 (FastaIndexNotFound (split_head ext f +:+ sfx)).
Proof.
  intros Hf He Hne Hi Hv HF Hx.
  unfold get_faidx, get_filext. rewrite Hi. simpl. rewrite Hv. simpl.
  now apply get_faidx_from_missing.
Qed.

Lemma get_faidx_first_missing_witness :
  get_faidx hg19 (holds ["data/hg19.fasta"; "data/hg19.fasta.fai"])
  = Exited 1 (FastaIndexNotFound "data/hg19.fasta.bwt").
Proof.
  apply (get_faidx_first_missing hg19 _ "data/hg19.fasta" ".fasta"
           (VList [".fasta.fai"; ".fasta.bwt"])
           [".fasta.fai"] ".fasta.bwt" []);
    try (vm_compute; reflexivity).
  - discriminate.
  - repeat constructor.
Defined.

(** X10. The reference is checked inside the loop over the suffixes: with no
    suffix registered [get_faidx] returns the empty list whatever the
    reference is, and with one suffix at least it ends as [get_fasta] does
    when that does not return. *)
Theorem get_faidx_checks_reference_per_suffix (doc : Analysis)
    (path_exists : string -> bool) (v : value) (sfxs : list string) :
  file_exts (settings doc) !! "fasta_idx" = Some v ->
  iterate v = Return sfxs ->
  (sfxs = [] -> get_faidx doc path_exists = Passed [])
  /\ (sfxs <> [] ->
      (forall st msg, get_fasta doc path_exists = Exited st msg ->
                      get_faidx doc path_exists = Exited st msg)
      /\ (forall e, get_fasta doc path_exists = Raised e ->
                    get_faidx doc path_exists = Raised e)).
Proof.
  intros Hi Hv. unfold get_faidx, get_filext. rewrite Hi. simpl.
  rewrite Hv. simpl. split.
  - intros ->. reflexivity.
  - intros Hne. destruct sfxs as [|sfx sfxs]; [congruence|]. simpl.
    split; [intros st msg ->|intros e ->]; reflexivity.
Qed.

Lemma get_faidx_checks_reference_per_suffix_witness :
  get_faidx hg19 (holds []) = Exited 1 (FastaNotFound "data/hg19.fasta").
Proof.
  apply (proj1 (proj2 (get_faidx_checks_reference_per_suffix hg19 (holds [])
                  (VList [".fasta.fai"; ".fasta.bwt"])
                  [".fasta.fai"; ".fasta.bwt"] eq_refl eq_refl)
                  ltac:(discriminate))).
  vm_compute. reflexivity.
Defined.

(** ** What a returned list tells *)

(** X11. [make_output] returns no partial list: when it returns, the mode was
    valid, the reader came to the end of the manifest without an error of
    the [csv] module, every data row passed the statements under [try], and
    the list has one target per row and enabled caller; if there was a data
    row at all, every enabled caller is supported. *)
Theorem make_output_all_or_nothing (cfg : Config) (fp : list string)
    (outs : list string) :
  result (make_output cfg fp) = Return outs ->
  valid_mode cfg
  /\ exhausted (manifest_rows fp) = true
  /\ Forall (valid_row cfg) (yielded (manifest_rows fp))
  /\ length outs
     = length (yielded (manifest_rows fp)) * length (enable_callers cfg)
  /\ (yielded (manifest_rows fp) <> [] ->
      forall c, c ∈ enable_callers cfg -> is_Some (callers cfg !! c)).
Proof.
  unfold make_output. intros H.
  destruct (mode_in_s_p (mode cfg)) eqn:Hm; [|discriminate].
  apply rows_loop_Return in H as (Hex & tss & HF & ->).
  split; [now apply valid_mode_in_s_p|]. split; [exact Hex|].
  split; [|split].
  - clear Hex. induction HF as [|r ts rows tss (path & Hp & _) _ IH];
      constructor; [now exists path | exact IH].
  - simpl. rewrite length_join,
      (sum_list_fmap_same (length (enable_callers cfg)))
      by exact (row_yields_length cfg _ _ HF).
    now rewrite (Forall2_length _ _ _ HF).
  - intros Hne. destruct HF as [|r ts rows tss (path & _ & HF) _];
      [congruence|].
    apply Forall_forall. eapply targets_supported, HF.
Qed.

Lemma make_output_all_or_nothing_witness :
  result (make_output (manta_config "p" ["manta"]) paired_manifest)
  = Return ["runs/A--B/manta_out/survivor/manta.vcf"]
  /\ exhausted (manifest_rows paired_manifest) = true.
Proof.
  assert (H : result (make_output (manta_config "p" ["manta"]) paired_manifest)
              = Return ["runs/A--B/manta_out/survivor/manta.vcf"])
    by (vm_compute; reflexivity).
  split; [exact H|].
  exact (proj1 (proj2 (make_output_all_or_nothing _ _ _ H))).
Defined.

Lemma consumed_by_le (fp : list string) (k : nat) :
  consumed_by k fp <= length fp.
Proof.
  revert k. induction fp as [|line fp IH]; intros k.
  - destruct k; simpl; lia.
  - destruct k as [|k]; [simpl; lia|]. cbn [consumed_by length].
    destruct (startswith "#" line); [specialize (IH (S k))|specialize (IH k)];
      lia.
Qed.

Lemma consumed_by_all (fp : list string) (k : nat) :
  length (uncommented fp) < k -> consumed_by k fp = length fp.
Proof.
  revert k. induction fp as [|line fp IH]; intros k Hk.
  - destruct k; reflexivity.
  - destruct k as [|k]; [lia|]. cbn [consumed_by length].
    unfold uncommented in *. rewrite filter_cons in Hk.
    destruct (startswith "#" line) eqn:E.
    + rewrite decide_False in Hk by discriminate. now rewrite IH.
    + rewrite decide_True in Hk by reflexivity. cbn [length] in Hk.
      rewrite IH; [reflexivity | lia].
Qed.

Lemma records_final (lines : list string) (rd : Csv.Reader) (k : nat) :
  exhausted (Csv.records rd lines k) = true ->
  k + length lines < final_pulls (Csv.records rd lines k).
Proof.
  revert rd k. induction lines as [|line rest IH]; intros rd k; simpl.
  - destruct (_ || _); simpl; lia.
  - destruct (Csv.feed rd line) as [rd'|]; simpl; [|discriminate].
    destruct (Csv.at_record_start rd'); simpl; intros H;
      apply IH in H; lia.
Qed.

Lemma DictReader_rows_final (fieldnames : list string)
    (s : stream (list string)) :
  final_pulls (DictReader_rows fieldnames s) = final_pulls s
  /\ exhausted (DictReader_rows fieldnames s) = exhausted s.
Proof.
  induction s as [n|n|x n rest IH]; simpl; auto.
  destruct x; simpl; exact IH.
Qed.

Lemma rows_loop_Return_pulls (cfg : Config) (s : stream row) (i : nat)
    (acc outs : list string) :
  result (rows_loop cfg i s acc) = Return outs ->
  pulls (rows_loop cfg i s acc) = final_pulls s.
Proof.
  revert i acc. induction s as [n|n|r n rest IH]; simpl; intros i acc H.
  - reflexivity.
  - discriminate.
  - destruct (row_targets cfg i r acc); try discriminate. now apply IH.
Qed.

(** X12. A run never reads more lines than the manifest has, and a run that
    returns has read the manifest to its end, the comment lines after the
    last data row included. *)
Theorem make_output_reads_to_the_end (cfg : Config) (fp : list string) :
  lines_read cfg fp <= length fp
  /\ forall outs, result (make_output cfg fp) = Return outs ->
       lines_read cfg fp = length fp.
Proof.
  split; [apply consumed_by_le|].
  intros outs H. unfold lines_read. unfold make_output in *.
  destruct (mode_in_s_p (mode cfg)); [|discriminate].
  pose proof (proj1 (rows_loop_Return _ _ _ _ _ H)) as Hex.
  rewrite (rows_loop_Return_pulls _ _ _ _ _ H).
  apply consumed_by_all.
  unfold manifest_rows, DictReader, Csv.reader in *.
  pose proof (records_final (uncommented fp) Csv.parse_reset 0) as Hf.
  destruct (Csv.records Csv.parse_reset (uncommented fp) 0)
    as [k|k|header k rows]; simpl in *.
  - specialize (Hf eq_refl). lia.
  - discriminate.
  - destruct (DictReader_rows_final header rows) as [-> E].
    rewrite E in Hex. specialize (Hf Hex). lia.
Qed.

(** X13. A manifest without a line outside comments, the empty file among
    them, gives the empty list and the empty set when the mode is valid:
    neither a header nor a caller is asked for. *)
Theorem make_output_of_empty_manifest (cfg : Config) (fp : list string) :
  valid_mode cfg -> uncommented fp = [] ->
  result (make_output cfg fp) = Return []
  /\ make_all cfg fp = Return ∅.
Proof.
  intros Hm Hfp. apply valid_mode_in_s_p in Hm.
  assert (H : result (make_output cfg fp) = Return []).
  { unfold make_output, manifest_rows. rewrite Hm, Hfp. reflexivity. }
  split; [exact H|]. unfold make_all. rewrite H. reflexivity.
Qed.

Lemma make_output_of_empty_manifest_witness :
  uncommented ["#sample sheet" +:+ nl; "#PATH,SAMPLE1" +:+ nl] = []
  /\ result (make_output (manta_config "s" ["lumpy"])
               ["#sample sheet" +:+ nl; "#PATH,SAMPLE1" +:+ nl])
     = Return [].
Proof.
  assert (H : uncommented ["#sample sheet" +:+ nl; "#PATH,SAMPLE1" +:+ nl]
              = []) by reflexivity.
  split; [exact H|].
  exact (proj1 (make_output_of_empty_manifest (manta_config "s" ["lumpy"]) _
                  (or_introl eq_refl) H)).
Defined.

(** ** Absolute output directories *)

Lemma join_step_absolute (path b : string) :
  startswith sep b = true -> join_step path b = b.
Proof. intros H. unfold join_step. now rewrite H. Qed.

Lemma os_path_join_three (a b c d : string) :
  os_path_join (VStr a) [VStr b; VStr c; VStr d]
  = Return (join_step (join_step (join_step a b) c) d).
Proof. reflexivity. Qed.

(** X14. A caller whose output directory starts with the separator gets the
    same target for every sample path: the rows of a manifest are not told
    apart in its targets. *)
Theorem absolute_outdir_forgets_sample (cfg : Config) (c outdir : string)
    (path path' : string) :
  get_outdir cfg c = Return (VStr outdir) ->
  startswith sep outdir = true ->
  caller_target cfg path c = caller_target cfg path' c.
Proof.
  intros Hd Hs. unfold caller_target.
  destruct (get_filext cfg "vcf") as [ext| |]; simpl; try reflexivity.
  destruct (str_add c ext) as [vcf| |]; simpl; try reflexivity.
  rewrite Hd. cbn [mbind outcome_bind].
  now rewrite !os_path_join_three, !(join_step_absolute _ outdir Hs).
Qed.

Lemma absolute_outdir_forgets_sample_witness :
  caller_target scratch_config "runs/A--B" "manta"
  = caller_target scratch_config "runs/C--D" "manta"
  /\ caller_target scratch_config "runs/C--D" "manta"
     = Return "/scratch/manta/survivor/manta.vcf".
Proof.
  split; [|vm_compute; reflexivity].
  apply (absolute_outdir_forgets_sample scratch_config "manta"
           "/scratch/manta"); vm_compute; reflexivity.
Defined.

(** ** Sheets without a column *)

Lemma row_targets_KeyError (cfg : Config) (i : nat) (r : row)
    (acc : list string) (k : string) :
  sample_path cfg r = Raise (KeyError k) ->
  row_targets cfg i r acc = Raise (KeyError k).
Proof.
  intros H. unfold row_targets, checked_sample_path. now rewrite H.
Qed.

(** X15. A data row without one of the keys its mode reads ends the run in a
    [KeyError] that no handler reports: [PATH] first, then [SAMPLE1] (also
    when the value of [PATH] is [None]), then, in paired mode and after the
    path was joined, [SAMPLE2]. *)
Theorem missing_column_raises_KeyError (cfg : Config) (fp : list string)
    (pre : list row) (r : row) (post : list row) :
  valid_mode cfg ->
  yielded (manifest_rows fp) = pre ++ r :: post ->
  Forall (fun r' => exists ts, row_yields cfg r' ts) pre ->
  (dict_find (Some "PATH") r = None ->
   result (make_output cfg fp) = Raise (KeyError "PATH"))
  /\ (is_Some (dict_find (Some "PATH") r) ->
      dict_find (Some "SAMPLE1") r = None ->
      result (make_output cfg fp) = Raise (KeyError "SAMPLE1"))
  /\ (forall a b,
        mode cfg = VStr "p" ->
        dict_find (Some "PATH") r = Some (VStr a) ->
        dict_find (Some "SAMPLE1") r = Some (VStr b) -> b <> "" ->
        dict_find (Some "SAMPLE2") r = None ->
        result (make_output cfg fp) = Raise (KeyError "SAMPLE2")).
Proof.
  intros Hm Hy Hpre.
  assert (Hstop : forall k, sample_path cfg r = Raise (KeyError k) ->
                    result (make_output cfg fp) = Raise (KeyError k)).
  { intros k Hk. unfold make_output.
    rewrite (proj1 (valid_mode_in_s_p cfg) Hm).
    apply (rows_loop_stops cfg pre r post _ _ 0 [] Hy Hpre); [|reflexivity].
    intros acc'. now apply row_targets_KeyError. }
  split; [|split].
  - intros HP. apply Hstop. unfold sample_path, dict_get. now rewrite HP.
  - intros [p HP] H1. apply Hstop. unfold sample_path, dict_get.
    now rewrite HP, H1.
  - intros a b Hp HP H1 Hb H2. apply Hstop. unfold sample_path, dict_get.
    rewrite HP, H1, H2, Hp. simpl.
    destruct b; [congruence | reflexivity].
Qed.

Lemma missing_column_raises_KeyError_witness :
  yielded (manifest_rows single_manifest)
  = [] ++ [(Some "PATH", VStr "runs"); (Some "SAMPLE1", VStr "A")] :: []
  /\ result (make_output (manta_config "p" ["manta"]) single_manifest)
     = Raise (KeyError "SAMPLE2").
Proof.
  assert (Hy : yielded (manifest_rows single_manifest)
    = [] ++ [(Some "PATH", VStr "runs"); (Some "SAMPLE1", VStr "A")] :: [])
    by (vm_compute; reflexivity).
  split; [exact Hy|].
  apply (proj2 (proj2 (missing_column_raises_KeyError
                  (manta_config "p" ["manta"]) _ _ _ _
                  (or_intror eq_refl) Hy (Forall_nil_2 _))) "runs" "A");
    try reflexivity.
  discriminate.
Defined.

(** ** The rows of the reader *)

Lemma dict_find_set_eq (k : option string) (v : value) (d : row) :
  dict_find k (dict_set k v d) = Some v.
Proof.
  induction d as [|[k' v'] d IH]; simpl.
  - now rewrite decide_True.
  - destruct (decide (k = k')) as [E|E]; simpl.
    + now rewrite decide_True.
    + now rewrite decide_False.
Qed.

Lemma dict_find_set_ne (k k' : option string) (v : value) (d : row) :
  k <> k' -> dict_find k' (dict_set k v d) = dict_find k' d.
Proof.
  intros Hne. induction d as [|[k0 v0] d IH]; simpl.
  - now rewrite decide_False by congruence.
  - destruct (decide (k = k0)) as [E|E]; simpl.
    + subst k0. now rewrite !decide_False by congruence.
    + destruct (decide (k' = k0)); [reflexivity | exact IH].
Qed.

Lemma foldl_fields_other (kvs : list (string * string)) (d : row)
    (f : string) :
  f ∉ kvs.*1 ->
  dict_find (Some f)
    (foldl (fun d kv => dict_set (Some (fst kv)) (VStr (snd kv)) d) d kvs)
  = dict_find (Some f) d.
Proof.
  revert d. induction kvs as [|[k x] kvs IH]; intros d Hf; simpl;
    [reflexivity|].
  rewrite fmap_cons, not_elem_of_cons in Hf. destruct Hf as [Hk Hf].
  rewrite IH by exact Hf. apply dict_find_set_ne. simpl in *. congruence.
Qed.

Lemma foldl_fields_in (kvs : list (string * string)) (d : row) (f : string) :
  f ∈ kvs.*1 ->
  exists x,
    dict_find (Some f)
      (foldl (fun d kv => dict_set (Some (fst kv)) (VStr (snd kv)) d) d kvs)
    = Some (VStr x).
Proof.
  revert d. induction kvs as [|[k x] kvs IH]; intros d Hf; simpl.
  - inversion Hf.
  - destruct (decide (f ∈ kvs.*1)) as [Hin|Hout]; [now apply IH|].
    rewrite fmap_cons, elem_of_cons in Hf. destruct Hf as [->|Hf]; [|tauto].
    exists x. rewrite foldl_fields_other by exact Hout.
    apply dict_find_set_eq.
Qed.

Lemma foldl_restval_other (keys : list string) (d : row) (f : string) :
  f ∉ keys ->
  dict_find (Some f)
    (foldl (fun d key => dict_set (Some key) VNone d) d keys)
  = dict_find (Some f) d.
Proof.
  revert d. induction keys as [|k keys IH]; intros d Hf; simpl;
    [reflexivity|].
  rewrite not_elem_of_cons in Hf. destruct Hf as [Hk Hf].
  rewrite IH by exact Hf. apply dict_find_set_ne. congruence.
Qed.

Lemma foldl_restval_in (keys : list string) (d : row) (f : string) :
  f ∈ keys ->
  dict_find (Some f)
    (foldl (fun d key => dict_set (Some key) VNone d) d keys)
  = Some VNone.
Proof.
  revert d. induction keys as [|k keys IH]; intros d Hf; simpl.
  - inversion Hf.
  - destruct (decide (f ∈ keys)) as [Hin|Hout]; [now apply IH|].
    rewrite elem_of_cons in Hf. destruct Hf as [->|Hf]; [|tauto].
    rewrite foldl_restval_other by exact Hout. apply dict_find_set_eq.
Qed.

Lemma fst_zip_take {A B} (l : list A) (k : list B) :
  (zip l k).*1 = take (length k) l.
Proof.
  revert k. induction l as [|a l IH]; intros [|b k]; simpl; try reflexivity.
  now rewrite IH.
Qed.

Lemma make_row_header_key (fieldnames record : list string) (f : string) :
  f ∈ fieldnames ->
  exists v, dict_get f (make_row fieldnames record) = Return v
            /\ field_value v.
Proof.
  unfold make_row, dict_get. intros Hf.
  assert (Hcase : (f ∈ drop (length record) fieldnames)
                  \/ (f ∉ drop (length record) fieldnames)
                     /\ (f ∈ (zip fieldnames record).*1)).
  { rewrite fst_zip_take.
    destruct (decide (f ∈ drop (length record) fieldnames)); [auto|].
    right. split; [assumption|].
    rewrite <- (take_drop (length record) fieldnames), elem_of_app in Hf.
    tauto. }
  destruct (length fieldnames <? length record) eqn:E1.
  - apply Nat.ltb_lt in E1.
    destruct Hcase as [Hd|[_ Hz]].
    { rewrite drop_ge in Hd by lia. inversion Hd. }
    destruct (foldl_fields_in _ [] f Hz) as [x Hx].
    exists (VStr x). rewrite dict_find_set_ne by discriminate.
    rewrite Hx. split; [reflexivity | right; eauto].
  - destruct (length record <? length fieldnames) eqn:E2.
    + destruct Hcase as [Hd|[Hd Hz]].
      { exists VNone. rewrite foldl_restval_in by exact Hd.
        split; [reflexivity | now left]. }
      destruct (foldl_fields_in _ [] f Hz) as [x Hx].
      exists (VStr x). rewrite foldl_restval_other by exact Hd.
      rewrite Hx. split; [reflexivity | right; eauto].
    + apply Nat.ltb_ge in E1, E2.
      destruct Hcase as [Hd|[_ Hz]].
      { rewrite drop_ge in Hd by lia. inversion Hd. }
      destruct (foldl_fields_in _ [] f Hz) as [x Hx].
      exists (VStr x). rewrite Hx. split; [reflexivity | right; eauto].
Qed.

(** X16. Every name of the header is a key of every row the reader builds,
    with a string or [None] as its value, so that a row never raises
    [KeyError] for a column the header names; the fields a record has beyond
    the header are kept as a list under the key [None]. *)
Theorem make_row_has_header_keys (fieldnames record : list string) :
  (forall f, f ∈ fieldnames ->
     exists v, dict_get f (make_row fieldnames record) = Return v
               /\ field_value v)
  /\ (length fieldnames < length record ->
      dict_find None (make_row fieldnames record)
      = Some (VList (drop (length fieldnames) record))).
Proof.
  split.
  - intros f. apply make_row_header_key.
  - intros Hlt. unfold make_row. apply Nat.ltb_lt in Hlt. rewrite Hlt.
    apply dict_find_set_eq.
Qed.

Lemma make_row_has_header_keys_witness :
  "SAMPLE2" ∈ ["PATH"; "SAMPLE1"; "SAMPLE2"]
  /\ exists v,
       dict_get "SAMPLE2" (make_row ["PATH"; "SAMPLE1"; "SAMPLE2"] ["runs"; "A"])
       = Return v /\ field_value v.
Proof.
  assert (H : "SAMPLE2" ∈ ["PATH"; "SAMPLE1"; "SAMPLE2"])
    by (do 2 apply list_elem_of_further; apply list_elem_of_here).
  split; [exact H|].
  exact (proj1 (make_row_has_header_keys ["PATH"; "SAMPLE1"; "SAMPLE2"]
                  ["runs"; "A"]) "SAMPLE2" H).
Defined.

Lemma foldl_fields_lookup (fs record : list string) (i : nat)
    (f x : string) (d : row) :
  NoDup fs -> fs !! i = Some f -> record !! i = Some x ->
  dict_find (Some f)
    (foldl (fun d kv => dict_set (Some (fst kv)) (VStr (snd kv)) d) d
           (zip fs record))
  = Some (VStr x).
Proof.
  intros Hnd. revert record i d.
  induction Hnd as [|f0 fs Hout _ IH]; intros record i d Hf Hx.
  - destruct i; discriminate.
  - destruct record as [|x0 record]; [destruct i; discriminate|].
    destruct i as [|i]; simpl in *.
    + inversion Hf; inversion Hx; subst.
      rewrite foldl_fields_other; [apply dict_find_set_eq|].
      rewrite fst_zip_take. intros Hin. apply Hout.
      eapply subseteq_take, Hin.
    + now apply IH with (i := i).
Qed.

(** X17. With a header whose names are all different, the value a row has
    under the name of column [i] is field [i] of the record, and [None] when
    the record has no field [i]. *)
Theorem make_row_by_position (fieldnames record : list string) (i : nat)
    (f : string) :
  NoDup fieldnames -> fieldnames !! i = Some f ->
  dict_get f (make_row fieldnames record)
  = Return (match record !! i with
            | Some x => VStr x
            | None => VNone
            end).
Proof.
  intros Hnd Hf. unfold make_row, dict_get.
  pose proof (lookup_lt_Some _ _ _ Hf) as Hi.
  destruct (record !! i) as [x|] eqn:Hx.
  - pose proof (lookup_lt_Some _ _ _ Hx) as Hi'.
    pose proof (foldl_fields_lookup fieldnames record i f x [] Hnd Hf Hx)
      as Hfound.
    destruct (length fieldnames <? length record).
    + rewrite dict_find_set_ne by discriminate. now rewrite Hfound.
    + destruct (length record <? length fieldnames); [|now rewrite Hfound].
      rewrite foldl_restval_other; [now rewrite Hfound|].
      intros Hin. apply list_elem_of_lookup in Hin as [j Hj].
      rewrite lookup_drop in Hj.
      pose proof (NoDup_lookup _ _ _ _ Hnd Hf Hj). lia.
  - apply lookup_ge_None in Hx.
    rewrite (proj2 (Nat.ltb_ge _ _)) by lia.
    rewrite (proj2 (Nat.ltb_lt _ _)) by lia.
    rewrite foldl_restval_in; [reflexivity|].
    apply list_elem_of_lookup. exists (i - length record).
    rewrite lookup_drop. rewrite <- Hf. f_equal. lia.
Qed.

Lemma make_row_by_position_witness :
  NoDup ["PATH"; "SAMPLE1"; "SAMPLE2"]
  /\ dict_get "SAMPLE1" (make_row ["PATH"; "SAMPLE1"; "SAMPLE2"] ["runs"; "A"])
     = Return (VStr "A")
  /\ dict_get "SAMPLE2" (make_row ["PATH"; "SAMPLE1"; "SAMPLE2"] ["runs"; "A"])
     = Return VNone.
Proof.
  assert (H : NoDup ["PATH"; "SAMPLE1"; "SAMPLE2"])
    by (apply (bool_decide_unpack _); vm_compute; exact I).
  split; [exact H|]. split.
  - exact (make_row_by_position _ ["runs"; "A"] 1 "SAMPLE1" H eq_refl).
  - exact (make_row_by_position _ ["runs"; "A"] 2 "SAMPLE2" H eq_refl).
Defined.

(** ** Merged targets of plain targets *)

Lemma split_cons_form (c : ascii) (s : string) :
  exists h t, split c s = h :: t.
Proof.
  destruct s as [|a s]; simpl; [eauto|].
  destruct (Ascii.eqb a c); [eauto|]. destruct (split c s); eauto.
Qed.

Lemma split_no_sep (c : ascii) (s : string) :
  has_char c s = false -> split c s = [s].
Proof.
  induction s as [|a s IH]; [reflexivity|]. simpl. intros H.
  apply orb_false_iff in H as [Ha Hs]. now rewrite Ha, (IH Hs).
Qed.

Lemma split_app_sep (c : ascii) (a b : string) :
  split c (a +:+ String c b) = split c a ++ split c b.
Proof.
  induction a as [|x a IH].
  - change ("" +:+ String c b) with (String c b). simpl.
    now rewrite Ascii.eqb_refl.
  - rewrite append_cons. simpl. rewrite IH.
    destruct (Ascii.eqb x c); [reflexivity|].
    destruct (split_cons_form c a) as (h & t & ->). reflexivity.
Qed.

Lemma sep_join_split (c : ascii) (s : string) :
  sep_join (String c EmptyString) (split c s) = s.
Proof.
  induction s as [|a s IH]; [reflexivity|]. simpl.
  destruct (split_cons_form c s) as (h & t & E). rewrite E in *.
  destruct (Ascii.eqb_spec a c) as [->|_].
  - change (sep_join (String c "") ("" :: h :: t))
      with ("" +:+ String c "" +:+ sep_join (String c "") (h :: t)).
    now rewrite IH.
  - destruct t as [|h' t]; simpl in *; [now rewrite IH|].
    rewrite append_cons. now rewrite IH.
Qed.

Lemma has_char_startswith (s : string) :
  has_char "/" s = false -> startswith sep s = false.
Proof.
  destruct s as [|a s]; [reflexivity|]. intros H.
  apply has_char_false_cons in H as [Ha _].
  unfold startswith, sep. cbn [String.prefix].
  destruct (ascii_dec "/" a); congruence.
Qed.

Lemma has_char_endswith_sep (s : string) :
  has_char "/" s = false -> endswith_sep s = false.
Proof.
  induction s as [|a s IH]; [reflexivity|]. intros H.
  apply orb_false_iff in H as [Ha Hs]. simpl.
  destruct s; [exact Ha | now apply IH].
Qed.

Lemma drop_last_app {A} (l k : list A) : drop_last (length k) (l ++ k) = l.
Proof.
  unfold drop_last. rewrite length_app, Nat.add_sub. apply take_app_length.
Qed.

Lemma drop_last_three {A} (l : list A) (a b c : A) :
  drop_last 3 (l ++ [a; b; c]) = l.
Proof. exact (drop_last_app l [a; b; c]). Qed.

Lemma plain_components_join (path outdir vcf : string) :
  path <> "" -> endswith_sep path = false ->
  outdir <> "" -> has_char "/" outdir = false ->
  has_char "/" vcf = false ->
  joins_plainly path outdir vcf.
Proof.
  intros. repeat split;
    auto using has_char_startswith, has_char_endswith_sep.
Qed.

Lemma merged_path_template (path outdir name ext : string) :
  path <> "" -> endswith_sep path = false ->
  has_char "/" outdir = false -> has_char "/" (name +:+ ext) = false ->
  merged_path (per_caller_template path outdir name ext)
  = path +:+ "/all.vcf".
Proof.
  intros Hp Hpe Hds Hv. unfold merged_path, per_caller_template.
  change (path +:+ "/" +:+ outdir +:+ "/survivor/" +:+ name +:+ ext)
    with (path +:+ String "/"
            (outdir +:+ String "/"
               ("survivor" +:+ String "/" (name +:+ ext)))).
  rewrite !split_app_sep, (split_no_sep _ outdir Hds),
    (split_no_sep "/" "survivor" eq_refl), (split_no_sep _ _ Hv).
  change ([outdir] ++ ["survivor"] ++ [name +:+ ext])
    with [outdir; "survivor"; name +:+ ext].
  rewrite drop_last_three.
  unfold sep. rewrite sep_join_split.
  now rewrite (join_one_plain path "all.vcf" Hp Hpe eq_refl).
Qed.

(** X18. The merged target of a per-caller target is the sample path with
    [all.vcf], when the output directory is one segment without a separator,
    the file name holds no separator, and the sample path is not empty and
    does not end with the separator: cutting three components undoes what
    [make_output] joined. *)
Theorem merged_path_of_plain_target (path outdir name ext : string) :
  path <> "" -> endswith_sep path = false ->
  outdir <> "" -> has_char "/" outdir = false ->
  has_char "/" (name +:+ ext) = false ->
  merged_path (join path [outdir; "survivor"; name +:+ ext])
  = path +:+ "/all.vcf".
Proof.
  intros Hp Hpe Hd Hds Hv.
  rewrite join_target_plain by now apply plain_components_join.
  now apply merged_path_template.
Qed.

Lemma merged_path_of_plain_target_witness :
  merged_path (join "runs/A--B" ["manta_out"; "survivor"; "manta" +:+ ".vcf"])
  = "runs/A--B" +:+ "/all.vcf".
Proof.
  apply merged_path_of_plain_target;
    try discriminate; vm_compute; reflexivity.
Defined.

(** The merged targets go wrong when the output directory has two
    segments: the first of them stays in the merged path. *)
Example merged_path_nested_outdir :
  merged_path (join "runs/A" ["out/manta"; "survivor"; "manta.vcf"])
  = "runs/A/out/all.vcf".
Proof. reflexivity. Qed.

(** ** One merged target per sample path *)

Lemma append_nonempty_r (a b : string) : b <> "" -> a +:+ b <> "".
Proof. destruct a; [now intros | discriminate]. Qed.

Lemma join_step_nonempty (a b : string) : b <> "" -> join_step a b <> "".
Proof.
  intros Hb. unfold join_step.
  destruct (startswith sep b); [exact Hb|].
  destruct (_ || _); repeat apply append_nonempty_r; exact Hb.
Qed.

(** The sample path of a valid row is never the empty string. *)
Lemma sample_path_nonempty (cfg : Config) (r : row) (path : string) :
  sample_path cfg r = Return path -> path <> "".
Proof.
  unfold sample_path. intros H.
  apply bind_Return in H as (p & _ & H).
  apply bind_Return in H as (s1 & _ & H).
  apply bind_Return in H as (joined & Hj & H).
  assert (Hne : joined <> "").
  { unfold os_path_join in Hj.
    apply bind_Return in Hj as (a & _ & Hj).
    apply bind_Return in Hj as (bs & Hbs & Hj).
    simpl in Hbs. apply bind_Return in Hbs as (b & Hb & Hbs).
    inversion Hbs; subst bs. inversion Hj; subst joined.
    unfold join. simpl. apply join_step_nonempty.
    destruct s1 as [| | |[|c s]|]; simpl in Hb; try discriminate.
    inversion Hb. discriminate. }
  destruct (mode_startswith_p (mode cfg)).
  - apply bind_Return in H as (s2 & _ & H).
    apply bind_Return in H as (tail & _ & H).
    inversion H. now apply append_nonempty.
  - inversion H; subst. exact Hne.
Qed.

Lemma plain_targets (cfg : Config) (path : string) :
  plainly_configured cfg ->
  exists ts,
    Forall2 (fun c t => caller_target cfg path c = Return t)
            (enable_callers cfg) ts
    /\ (path <> "" -> endswith_sep path = false ->
        Forall (fun t => merged_path t = path +:+ "/all.vcf") ts).
Proof.
  intros (ext & He & HF).
  induction HF as [|c cs (Hv & st & d & Hc & Hd & Hne & Hds) _ (ts & IH1 & IH2)].
  - exists []. split; [constructor|]. intros. constructor.
  - exists (join path [d; "survivor"; c +:+ ext] :: ts). split.
    + constructor; [|exact IH1].
      eapply caller_target_declared; eassumption.
    + intros Hp Hpe. constructor; [|now apply IH2].
      rewrite join_target_plain by now apply plain_components_join.
      now apply merged_path_template.
Qed.

Lemma plainly_well_configured (cfg : Config) :
  plainly_configured cfg -> well_configured cfg.
Proof.
  intros (ext & He & HF). split; [eauto|].
  eapply Forall_impl; [exact HF|].
  intros c (_ & st & d & Hc & Hd & _). exists st, d. auto.
Qed.

Lemma merged_of_one_path (path : string) (ts : list string) :
  ts <> [] -> Forall (fun t => merged_path t = path +:+ "/all.vcf") ts ->
  list_to_set (merged_path <$> ts) = ({[ path +:+ "/all.vcf" ]} : gset string).
Proof.
  intros Hne HF. apply set_eq. intros x.
  rewrite elem_of_list_to_set, list_elem_of_fmap, elem_of_singleton.
  rewrite Forall_forall in HF. split.
  - intros (t & -> & Ht). now apply HF.
  - intros ->. destruct ts as [|t ts]; [congruence|].
    exists t. split; [symmetry; apply HF|]; apply list_elem_of_here.
Qed.

Lemma merged_join (paths : list string) (tss : list (list string)) :
  Forall2 (fun p ts => ts <> []
             /\ Forall (fun t => merged_path t = p +:+ "/all.vcf") ts)
          paths tss ->
  merged (mjoin tss) = list_to_set ((fun p => p +:+ "/all.vcf") <$> paths).
Proof.
  unfold merged. induction 1 as [|p ts paths tss [Hne HF] _ IH].
  - reflexivity.
  - simpl. rewrite fmap_app, list_to_set_app_L, IH.
    now rewrite (merged_of_one_path p ts Hne HF).
Qed.

(** X19. With a valid mode, at least one enabled caller, output directories
    that are single segments and file names without a separator, a manifest
    that is read to its end and whose rows are valid with sample paths that
    do not end with the separator gives through [make_all] exactly the set
    of its sample paths, each followed by [/all.vcf]: one merged target for
    each sample path, however many callers are enabled. *)
Theorem make_all_one_per_sample_path (cfg : Config) (fp : list string) :
  valid_mode cfg -> plainly_configured cfg -> enable_callers cfg <> [] ->
  exhausted (manifest_rows fp) = true ->
  Forall (fun r => exists p, sample_path cfg r = Return p
                             /\ endswith_sep p = false)
         (yielded (manifest_rows fp)) ->
  exists paths,
    Forall2 (fun r p => sample_path cfg r = Return p)
            (yielded (manifest_rows fp)) paths
    /\ make_all cfg fp
       = Return (list_to_set ((fun p => p +:+ "/all.vcf") <$> paths)).
Proof.
  intros Hm Hcfg Hen Hex Hrows.
  assert (H : exists paths tss,
    Forall2 (fun r p => sample_path cfg r = Return p)
            (yielded (manifest_rows fp)) paths
    /\ Forall2 (row_yields cfg) (yielded (manifest_rows fp)) tss
    /\ Forall2 (fun p ts => ts <> []
                  /\ Forall (fun t => merged_path t = p +:+ "/all.vcf") ts)
               paths tss).
  { induction Hrows as [|r rows (p & Hp & Hpe) _ (paths & tss & H1 & H2 & H3)].
    - exists [], []. repeat split; constructor.
    - destruct (plain_targets cfg p Hcfg) as (ts & Hts & Hmerged).
      exists (p :: paths), (ts :: tss).
      split; [constructor; assumption|].
      split; [constructor; [exists p; auto | assumption]|].
      constructor; [|assumption]. split.
      + intros ->. apply Forall2_length in Hts.
        destruct (enable_callers cfg); [congruence | discriminate].
      + apply Hmerged; [|exact Hpe]. eapply sample_path_nonempty, Hp. }
  destruct H as (paths & tss & H1 & H2 & H3).
  exists paths. split; [exact H1|].
  unfold make_all, make_output.
  rewrite (proj1 (valid_mode_in_s_p cfg) Hm).
  rewrite (rows_loop_all cfg _ 0 [] tss Hex H2). simpl.
  now rewrite (merged_join paths tss H3).
Qed.

Lemma make_all_one_per_sample_path_witness :
  exists paths,
    Forall2 (fun r p => sample_path (manta_config "p" ["manta"; "delly"]) r
                        = Return p)
      (yielded (manifest_rows
         ["PATH,SAMPLE1,SAMPLE2" +:+ nl; "runs,A,B" +:+ nl;
          "runs,C,D" +:+ nl]))
      paths
    /\ make_all (manta_config "p" ["manta"; "delly"])
         ["PATH,SAMPLE1,SAMPLE2" +:+ nl; "runs,A,B" +:+ nl; "runs,C,D" +:+ nl]
       = Return (list_to_set ((fun p => p +:+ "/all.vcf") <$> paths)).
Proof.
  apply make_all_one_per_sample_path.
  - right. reflexivity.
  - exists ".vcf". split; [vm_compute; reflexivity|].
    constructor; [|constructor; [|constructor]].
    + split; [vm_compute; reflexivity|].
      exists {[ "outdir" := VStr "manta_out" ]}, "manta_out".
      repeat split; try discriminate; vm_compute; reflexivity.
    + split; [vm_compute; reflexivity|].
      exists {[ "outdir" := VStr "delly_out" ]}, "delly_out".
      repeat split; try discriminate; vm_compute; reflexivity.
  - discriminate.
  - vm_compute. reflexivity.
  - replace (yielded (manifest_rows
      ["PATH,SAMPLE1,SAMPLE2" +:+ nl; "runs,A,B" +:+ nl; "runs,C,D" +:+ nl]))
      with [ [(Some "PATH", VStr "runs"); (Some "SAMPLE1", VStr "A");
              (Some "SAMPLE2", VStr "B")];
             [(Some "PATH", VStr "runs"); (Some "SAMPLE1", VStr "C");
              (Some "SAMPLE2", VStr "D")] ]
      by (vm_compute; reflexivity).
    constructor; [eexists; split; vm_compute; reflexivity|].
    constructor; [eexists; split; vm_compute; reflexivity|].
    constructor.
Defined.

(** ** Data rows and records *)

Lemma DictReader_rows_yielded_eq (fieldnames : list string)
    (s : stream (list string)) :
  yielded (DictReader_rows fieldnames s)
  = make_row fieldnames <$> filter (fun record => record <> []) (yielded s).
Proof.
  induction s as [n|n|x n rest IH]; simpl; try reflexivity.
  destruct x as [|f record]; cbn [DictReader_rows yielded].
  - rewrite filter_cons_False by (intros H; now apply H). exact IH.
  - rewrite filter_cons_True by discriminate.
    rewrite fmap_cons. now rewrite IH.
Qed.

(** X20. The first record of the sheet, whatever it holds, is the header;
    the data rows are the records after it that are not empty, each turned
    into a row under that header, so that empty lines between records count
    as little as comment lines do in the record numbers. Every row has every
    name of the header as a key. *)
Theorem data_rows_of_records (fp : list string) (header : list string)
    (n : nat) (rest : stream (list string)) :
  Csv.reader (uncommented fp) = Yield header n rest ->
  yielded (manifest_rows fp)
  = make_row header <$> filter (fun record => record <> []) (yielded rest)
  /\ forall r f, r ∈ yielded (manifest_rows fp) -> f ∈ header ->
       exists v, dict_get f r = Return v /\ field_value v.
Proof.
  intros H.
  assert (E : yielded (manifest_rows fp)
    = make_row header <$> filter (fun record => record <> []) (yielded rest)).
  { unfold manifest_rows, DictReader. rewrite H.
    apply DictReader_rows_yielded_eq. }
  split; [exact E|].
  intros r f Hr Hf. rewrite E in Hr.
  apply list_elem_of_fmap in Hr as (record & -> & _).
  now apply make_row_header_key.
Qed.

Lemma data_rows_of_records_witness :
  Csv.reader (uncommented
    ["PATH,SAMPLE1" +:+ nl; nl; "#c" +:+ nl; "runs,A" +:+ nl])
  = Yield ["PATH"; "SAMPLE1"] 1 (Yield [] 2 (Yield ["runs"; "A"] 3 (Stop 4)))
  /\ yielded (manifest_rows
       ["PATH,SAMPLE1" +:+ nl; nl; "#c" +:+ nl; "runs,A" +:+ nl])
     = [make_row ["PATH"; "SAMPLE1"] ["runs"; "A"]].
Proof.
  assert (H : Csv.reader (uncommented
    ["PATH,SAMPLE1" +:+ nl; nl; "#c" +:+ nl; "runs,A" +:+ nl])
  = Yield ["PATH"; "SAMPLE1"] 1 (Yield [] 2 (Yield ["runs"; "A"] 3 (Stop 4))))
    by (vm_compute; reflexivity).
  split; [exact H|].
  exact (proj1 (data_rows_of_records _ _ _ _ H)).
Defined.
